(** * CIFIX LEARN backend: a shallow embedding of the services and routers

    The development follows the layout of [src/backend/app]:

    - [Py]          the few Python and SQLAlchemy primitives the code relies on
                    (exceptions, [scalar_one_or_none], [str.lower],
                    [str.replace], the [in] test on strings);
    - [Learning]    [services/learning_service.py];
    - [RateLimit]   the decorators of [middleware/__init__.py];
    - [Auth]        [routers/auth.py] and [core/security.py];
    - [Assessments] the analytics endpoint of [routers/assessments.py].

    Tables are lists of rows (records holding the columns the modelled code
    reads or writes), queries are filters over them, and every function that
    can raise returns a [Py.result]. *)

From stdpp Require Import gmap strings.
From Stdlib Require Import ZArith NArith QArith Qround Lqa List Sorted Permutation String Ascii Bool Lia.
From Stdlib Require Import DecimalString Floats.
Import ListNotations.

Unset Default Proof Using.
Local Open Scope Z_scope.

(* ===================================================================== *)
(** * Python and SQLAlchemy primitives                                    *)
(* ===================================================================== *)

Module Py.

(** Exceptions the modelled code raises or lets through. *)
Inductive exn : Type :=
| MultipleResultsFound
| ValueError (msg : string)
| IntegrityError
| HTTPException (status_code : Z) (detail : string).

(** A computation that returns or raises. *)
Inductive result (A : Type) : Type :=
| Ok (a : A)
| Raise (e : exn).
Arguments Ok {A} a.
Arguments Raise {A} e.

Definition bind {A B} (m : result A) (k : A -> result B) : result B :=
  match m with
  | Ok a => k a
  | Raise e => Raise e
  end.

Declare Scope py_scope.
Delimit Scope py_scope with py.
Notation "'let*' x ':=' m 'in' k" := (bind m (fun x => k))
  (at level 10, x pattern, m at level 100, k at level 200) : py_scope.

(** [Result.scalar_one_or_none()]: the row when the statement selects exactly
    one, [None] when it selects none, and [MultipleResultsFound] otherwise. *)
Definition scalar_one_or_none {A} (rows : list A) : result (option A) :=
  match rows with
  | [] => Ok None
  | [r] => Ok (Some r)
  | _ :: _ :: _ => Raise MultipleResultsFound
  end.

(** ** Strings

    A [str] is modelled as a [string] of one-byte characters; [lower] acts on
    the ASCII letters, which is what [str.lower] does on ASCII text. *)

Definition is_upper (c : ascii) : bool :=
  let n := nat_of_ascii c in (65 <=? n)%nat && (n <=? 90)%nat.

Definition lower_char (c : ascii) : ascii :=
  if is_upper c then ascii_of_nat (nat_of_ascii c + 32) else c.

Fixpoint lower (s : string) : string :=
  match s with
  | EmptyString => EmptyString
  | String c s' => String (lower_char c) (lower s')
  end.

(** [old in s] for strings: [old] starts at some position of [s]. *)
Fixpoint contains (old s : string) : bool :=
  String.prefix old s ||
  match s with
  | EmptyString => false
  | String _ s' => contains old s'
  end.

(** [s.replace(old, new)]: the occurrences of [old] are found from the left
    and do not overlap.  [skip] counts the characters of a match that are
    still to be dropped. *)
Fixpoint replace_from (old new : string) (skip : nat) (s : string) : string :=
  match s with
  | EmptyString => EmptyString
  | String c s' =>
      match skip with
      | S k => replace_from old new k s'
      | O =>
          if String.prefix old s
          then (new ++ replace_from old new (String.length old - 1) s')%string
          else String c (replace_from old new 0 s')
      end
  end.

(** With an empty [old] Python inserts [new] before every character and at
    the end. *)
Fixpoint replace_empty (new s : string) : string :=
  match s with
  | EmptyString => new
  | String c s' => (new ++ String c (replace_empty new s'))%string
  end.

Definition replace (old new s : string) : string :=
  match old with
  | EmptyString => replace_empty new s
  | String _ _ => replace_from old new 0 s
  end.



(** ** Numbers

    [int / int] is a binary64 division and [int(x)] truncates toward zero.
    The integers converted here are row counts and sums of columns, far
    below [2^63], where [of_uint63] is the conversion Python performs. *)

Definition float_of_int (z : Z) : float :=
  if 0 <=? z then PrimFloat.of_uint63 (Uint63.of_Z z)
  else PrimFloat.opp (PrimFloat.of_uint63 (Uint63.of_Z (- z))).

Definition truediv (a b : Z) : float :=
  PrimFloat.div (float_of_int a) (float_of_int b).

(** [int(x)] for a finite [x] (it raises on infinities and NaN, which the
    modelled code never produces). *)
Definition int_of_float (x : float) : Z :=
  match Prim2SF x with
  | S754_finite s m e =>
      let magnitude :=
        if 0 <=? e then Z.pos m * 2 ^ e else Z.pos m / 2 ^ (- e) in
      if s then - magnitude else magnitude
  | _ => 0
  end.

(** A Python number: an [int] or a [float]. *)
Inductive number : Type :=
| Int (z : Z)
| Float (x : float).

(** [num / den] rounded to the nearest integer, halves to the even one
    ([den] positive). *)
Definition round_half_even (num den : Z) : Z :=
  let q := num / den in
  let r := num mod den in
  if 2 * r <? den then q
  else if den <? 2 * r then q + 1
  else if Z.even q then q else q + 1.

(** [round(x, 2)] for a float: the exact value of [x] is rounded to two
    decimals, halves to even, and the float nearest to that decimal is
    returned.  The decimal [n / 100] is obtained by one division, which is
    the nearest float as long as [n] is below [2^53]. *)
Definition round2 (x : float) : float :=
  match Prim2SF x with
  | S754_finite s m e =>
      if 0 <=? e then x
      else
        let n := round_half_even (100 * Z.pos m) (2 ^ (- e)) in
        let magnitude := PrimFloat.div (float_of_int n) (float_of_int 100) in
        if s then PrimFloat.opp magnitude else magnitude
  | _ => x
  end.

(** [max(a, b)]: the first argument unless the second is greater. *)
Definition max (a b : Q) : Q := if Qle_bool b a then a else b.

End Py.

Import Py.
Local Open Scope py_scope.

(* ===================================================================== *)
(** * services/learning_service.py                                        *)
(* ===================================================================== *)

Module Learning.

(** ** Rows (models/user.py)

    A UUID is a 128-bit number, a [DateTime] a count of microseconds since
    the epoch.  A module's progress percentage is an [int] column that
    [update_module_progress] compares with a [float] argument; the code only
    compares these numbers, which is exact on finite values, so they are
    rationals here. *)

Definition uuid := N.
Bind Scope N_scope with uuid.
Definition datetime := Z.
Bind Scope Z_scope with datetime.

Record LearningPath := {
  lp_id : uuid;
  lp_name : string;
  lp_slug : string;
  lp_is_active : bool }.

Record LearningModule := {
  lm_id : uuid;
  lm_path_id : uuid;
  lm_sort_order : Z;
  lm_is_active : bool }.

Record StudentLearningPath := {
  slp_id : uuid;
  slp_student_id : uuid;
  slp_path_id : uuid;
  slp_started_at : option datetime;
  slp_completed_at : option datetime;
  slp_progress_percentage : Z;
  slp_is_active : bool }.

Record StudentModuleProgress := {
  smp_student_id : uuid;
  smp_module_id : uuid;
  smp_student_path_id : uuid;
  smp_status : string;
  smp_started_at : option datetime;
  smp_completed_at : option datetime;
  smp_progress_percentage : Q;
  smp_time_spent_minutes : Z;
  smp_last_accessed : datetime;
  smp_notes : option string }.

Record AchievementType := {
  at_id : uuid;
  at_name : string;
  at_points : Z }.

Record StudentAchievement := {
  sa_student_id : uuid;
  sa_achievement_type_id : uuid;
  sa_earned_at : datetime }.

(** The tables the service reads and writes.  The session flushes pending
    changes before each query, so a write is visible to the queries that
    follow it; an exception leaves the caller with the tables as they were
    (the session is rolled back).  The analytics rows that the service
    records through sessions of its own are not part of this state. *)
Record db := {
  learning_paths : list LearningPath;
  learning_modules : list LearningModule;
  student_learning_paths : list StudentLearningPath;
  student_module_progress : list StudentModuleProgress;
  achievement_types : list AchievementType;
  student_achievements : list StudentAchievement }.

Definition set_student_learning_paths (d : db) (l : list StudentLearningPath) : db :=
  {| learning_paths := learning_paths d;
     learning_modules := learning_modules d;
     student_learning_paths := l;
     student_module_progress := student_module_progress d;
     achievement_types := achievement_types d;
     student_achievements := student_achievements d |}.

Definition set_student_module_progress (d : db) (l : list StudentModuleProgress) : db :=
  {| learning_paths := learning_paths d;
     learning_modules := learning_modules d;
     student_learning_paths := student_learning_paths d;
     student_module_progress := l;
     achievement_types := achievement_types d;
     student_achievements := student_achievements d |}.

Definition set_student_achievements (d : db) (l : list StudentAchievement) : db :=
  {| learning_paths := learning_paths d;
     learning_modules := learning_modules d;
     student_learning_paths := student_learning_paths d;
     student_module_progress := student_module_progress d;
     achievement_types := achievement_types d;
     student_achievements := l |}.

(** ** find_learning_path_by_name *)

Definition name_mappings : list (string * string) :=
  [ ("game", "game-development");
    ("gaming", "game-development");
    ("games", "game-development");
    ("ai", "ai-machine-learning");
    ("artificial intelligence", "ai-machine-learning");
    ("machine learning", "ai-machine-learning");
    ("web", "web-development");
    ("website", "web-development");
    ("websites", "web-development");
    ("robot", "robotics");
    ("robots", "robotics");
    ("data", "data-science");
    ("analytics", "data-science");
    ("mobile", "mobile-app-development");
    ("app", "mobile-app-development");
    ("apps", "mobile-app-development");
    ("programming", "general-programming");
    ("coding", "general-programming") ]%string.

Definition active_path_named (path_name : string) (p : LearningPath) : bool :=
  (lp_name p =? path_name)%string && lp_is_active p.

Definition active_path_with_slug (slug : string) (p : LearningPath) : bool :=
  (lp_slug p =? slug)%string && lp_is_active p.

(** [path_name.lower().replace(' ', '-').replace('&', '').replace('  ', '-')] *)
Definition slug_of (path_name : string) : string :=
  replace "  " "-" (replace "&" "" (replace " " "-" (lower path_name))).



(** The [for key, slug in name_mappings.items()] loop: it returns at the
    first key found in [path_key], whatever the query then selects. *)
Fixpoint lookup_mappings (mappings : list (string * string)) (path_key : string)
    (paths : list LearningPath) : result (option LearningPath) :=
  match mappings with
  | [] => Ok None
  | (key, slug) :: rest =>
      if contains key path_key
      then scalar_one_or_none (List.filter (active_path_with_slug slug) paths)
      else lookup_mappings rest path_key paths
  end.

Definition find_learning_path_by_name (path_name : string) (d : db)
    : result (option LearningPath) :=
  let* path := scalar_one_or_none
                 (List.filter (active_path_named path_name) (learning_paths d)) in
  match path with
  | Some p => Ok (Some p)
  | None =>
      let slug := slug_of path_name in
      let* path := scalar_one_or_none
                     (List.filter (active_path_with_slug slug) (learning_paths d)) in
      match path with
      | Some p => Ok (Some p)
      | None => lookup_mappings name_mappings (lower path_name) (learning_paths d)
      end
  end.

(** ** _is_module_locked *)

Definition is_previous_module (module m : LearningModule) : bool :=
  (lm_path_id m =? lm_path_id module)%N &&
  (lm_sort_order m =? lm_sort_order module - 1) &&
  lm_is_active m.

Definition is_completed_progress (student_id module_id : uuid)
    (p : StudentModuleProgress) : bool :=
  (smp_student_id p =? student_id)%N &&
  (smp_module_id p =? module_id)%N &&
  (smp_status p =? "completed")%string.

Definition _is_module_locked (student_id : uuid) (module : LearningModule) (d : db)
    : result bool :=
  if lm_sort_order module <=? 1 then Ok false
  else
    let* previous_module :=
      scalar_one_or_none
        (List.filter (is_previous_module module) (learning_modules d)) in
    match previous_module with
    | None => Ok false
    | Some previous_module =>
        let* previous_progress :=
          scalar_one_or_none
            (List.filter (is_completed_progress student_id (lm_id previous_module))
               (student_module_progress d)) in
        match previous_progress with
        | None => Ok true
        | Some _ => Ok false
        end
    end.

(** ** start_module *)

Definition has_module_id (module_id : uuid) (m : LearningModule) : bool :=
  (lm_id m =? module_id)%N.

Definition is_active_enrolment (student_id path_id : uuid)
    (sp : StudentLearningPath) : bool :=
  (slp_student_id sp =? student_id)%N &&
  (slp_path_id sp =? path_id)%N &&
  slp_is_active sp.

Definition is_progress_of (student_id module_id : uuid)
    (p : StudentModuleProgress) : bool :=
  (smp_student_id p =? student_id)%N && (smp_module_id p =? module_id)%N.

(** The session holds the one row the query selected; assigning to its
    attributes rewrites that row. *)
Definition write_progress (student_id module_id : uuid)
    (progress : StudentModuleProgress) (d : db) : db :=
  set_student_module_progress d
    (List.map (fun p => if is_progress_of student_id module_id p then progress else p)
       (student_module_progress d)).

Definition mark_started (now : datetime) (p : StudentModuleProgress)
    : StudentModuleProgress :=
  {| smp_student_id := smp_student_id p;
     smp_module_id := smp_module_id p;
     smp_student_path_id := smp_student_path_id p;
     smp_status := if (smp_status p =? "not_started")%string
                   then "in_progress"%string else smp_status p;
     smp_started_at := if (smp_status p =? "not_started")%string
                       then Some now else smp_started_at p;
     smp_completed_at := smp_completed_at p;
     smp_progress_percentage := smp_progress_percentage p;
     smp_time_spent_minutes := smp_time_spent_minutes p;
     smp_last_accessed := now;
     smp_notes := smp_notes p |}.

Definition new_progress (student_id module_id student_path_id : uuid)
    (now : datetime) : StudentModuleProgress :=
  {| smp_student_id := student_id;
     smp_module_id := module_id;
     smp_student_path_id := student_path_id;
     smp_status := "in_progress";
     smp_started_at := Some now;
     smp_completed_at := None;
     smp_progress_percentage := 0;
     smp_time_spent_minutes := 0;
     smp_last_accessed := now;
     smp_notes := None |}.

Definition start_module (student_id module_id : uuid) (now : datetime) (d : db)
    : result (StudentModuleProgress * db) :=
  let* module :=
    scalar_one_or_none (List.filter (has_module_id module_id) (learning_modules d)) in
  match module with
  | None => Raise (ValueError "Module not found")
  | Some module =>
      let* student_path :=
        scalar_one_or_none
          (List.filter (is_active_enrolment student_id (lm_path_id module))
             (student_learning_paths d)) in
      match student_path with
      | None =>
          Raise (ValueError
                   "Student does not have access to this module's learning path")
      | Some student_path =>
          let* locked := _is_module_locked student_id module d in
          if locked
          then Raise (ValueError "Module is locked. Complete previous modules first.")
          else
            let* existing_progress :=
              scalar_one_or_none
                (List.filter (is_progress_of student_id module_id)
                   (student_module_progress d)) in
            match existing_progress with
            | Some existing_progress =>
                let progress := mark_started now existing_progress in
                Ok (progress, write_progress student_id module_id progress d)
            | None =>
                let progress :=
                  new_progress student_id module_id (slp_id student_path) now in
                Ok (progress,
                    set_student_module_progress d
                      (student_module_progress d ++ [progress]))
            end
      end
  end.

(** ** _update_path_progress *)

(** [select(func.count(LearningModule.id)).join(StudentLearningPath)]: the
    statement gives [join] no ON clause; the two tables are related through
    [path_id], which is the join condition taken here. *)
Definition is_active_module_of (student_path_id : uuid)
    (row : LearningModule * StudentLearningPath) : bool :=
  let (m, sp) := row in
  (lm_path_id m =? slp_path_id sp)%N &&
  (slp_id sp =? student_path_id)%N &&
  lm_is_active m.

Definition is_completed_in_path (student_id student_path_id : uuid)
    (p : StudentModuleProgress) : bool :=
  (smp_student_id p =? student_id)%N &&
  (smp_student_path_id p =? student_path_id)%N &&
  (smp_status p =? "completed")%string.

Definition count_total_modules (student_path_id : uuid) (d : db) : Z :=
  Z.of_nat (List.length
    (List.filter (is_active_module_of student_path_id)
       (List.list_prod (learning_modules d) (student_learning_paths d)))).

Definition count_completed_modules (student_id student_path_id : uuid) (d : db) : Z :=
  Z.of_nat (List.length
    (List.filter (is_completed_in_path student_id student_path_id)
       (student_module_progress d))).

(** [int((completed_modules / total_modules) * 100)], 0 without modules. *)
Definition path_percentage (completed_modules total_modules : Z) : Z :=
  if 0 <? total_modules
  then int_of_float
         (PrimFloat.mul (truediv completed_modules total_modules) (float_of_int 100))
  else 0.

(** [func.coalesce(StudentLearningPath.started_at, now)] *)
Definition coalesce (a : option datetime) (b : datetime) : option datetime :=
  match a with
  | Some _ => a
  | None => Some b
  end.

Definition set_path_progress (progress_percentage : Z) (now : datetime)
    (sp : StudentLearningPath) : StudentLearningPath :=
  {| slp_id := slp_id sp;
     slp_student_id := slp_student_id sp;
     slp_path_id := slp_path_id sp;
     slp_started_at := coalesce (slp_started_at sp) now;
     slp_completed_at := slp_completed_at sp;
     slp_progress_percentage := progress_percentage;
     slp_is_active := slp_is_active sp |}.

Definition set_path_completed (now : datetime) (sp : StudentLearningPath)
    : StudentLearningPath :=
  {| slp_id := slp_id sp;
     slp_student_id := slp_student_id sp;
     slp_path_id := slp_path_id sp;
     slp_started_at := slp_started_at sp;
     slp_completed_at := Some now;
     slp_progress_percentage := slp_progress_percentage sp;
     slp_is_active := slp_is_active sp |}.

(** [update(StudentLearningPath).where(id == student_path_id).values(...)] *)
Definition update_student_path (student_path_id : uuid)
    (f : StudentLearningPath -> StudentLearningPath) (d : db) : db :=
  set_student_learning_paths d
    (List.map (fun sp => if (slp_id sp =? student_path_id)%N then f sp else sp)
       (student_learning_paths d)).

Definition _update_path_progress (student_id student_path_id : uuid)
    (now : datetime) (d : db) : db :=
  let total_modules := count_total_modules student_path_id d in
  let completed_modules := count_completed_modules student_id student_path_id d in
  let progress_percentage := path_percentage completed_modules total_modules in
  let d := update_student_path student_path_id
             (set_path_progress progress_percentage now) d in
  if 100 <=? progress_percentage
  then update_student_path student_path_id (set_path_completed now) d
  else d.






(** ** _award_achievement_if_new *)

Definition has_achievement (student_id achievement_type_id : uuid)
    (a : StudentAchievement) : bool :=
  (sa_student_id a =? student_id)%N &&
  (sa_achievement_type_id a =? achievement_type_id)%N.

Definition _award_achievement_if_new (student_id : uuid) (achievement_name : string)
    (now : datetime) (d : db) : result db :=
  let* achievement_type :=
    scalar_one_or_none
      (List.filter (fun t => (at_name t =? achievement_name)%string)
         (achievement_types d)) in
  match achievement_type with
  | None => Ok d
  | Some achievement_type =>
      let* existing_achievement :=
        scalar_one_or_none
          (List.filter (has_achievement student_id (at_id achievement_type))
             (student_achievements d)) in
      match existing_achievement with
      | Some _ => Ok d
      | None =>
          let new_achievement :=
            {| sa_student_id := student_id;
               sa_achievement_type_id := at_id achievement_type;
               sa_earned_at := now |} in
          Ok (set_student_achievements d (student_achievements d ++ [new_achievement]))
      end
  end.

(** ** _check_achievements *)

Definition microseconds_per_day : Z := 86400 * 1000000.

(** [now.replace(hour=0, minute=0, second=0, microsecond=0)] *)
Definition today_start (now : datetime) : datetime :=
  now - now mod microseconds_per_day.

Definition is_completed_by (student_id : uuid) (p : StudentModuleProgress) : bool :=
  (smp_student_id p =? student_id)%N && (smp_status p =? "completed")%string.

Definition is_completed_since (student_id : uuid) (since : datetime)
    (p : StudentModuleProgress) : bool :=
  (smp_student_id p =? student_id)%N &&
  (smp_status p =? "completed")%string &&
  match smp_completed_at p with
  | Some t => since <=? t
  | None => false
  end.

Definition is_completed_path_of (student_id : uuid) (sp : StudentLearningPath) : bool :=
  (slp_student_id sp =? student_id)%N &&
  match slp_completed_at sp with
  | Some _ => true
  | None => false
  end.

Definition total_completed (student_id : uuid) (d : db) : Z :=
  Z.of_nat (List.length
    (List.filter (is_completed_by student_id) (student_module_progress d))).

Definition today_completed (student_id : uuid) (now : datetime) (d : db) : Z :=
  Z.of_nat (List.length
    (List.filter (is_completed_since student_id (today_start now))
       (student_module_progress d))).

Definition completed_paths (student_id : uuid) (d : db) : Z :=
  Z.of_nat (List.length
    (List.filter (is_completed_path_of student_id) (student_learning_paths d))).

Definition _check_achievements (student_id : uuid) (now : datetime) (d : db)
    : result db :=
  let* d :=
    if 1 <=? total_completed student_id d
    then _award_achievement_if_new student_id "First Steps" now d
    else Ok d in
  let* d :=
    if 3 <=? today_completed student_id now d
    then _award_achievement_if_new student_id "Quick Learner" now d
    else Ok d in
  if 1 <=? completed_paths student_id d
  then _award_achievement_if_new student_id "Path Completer" now d
  else Ok d.

(** ** update_module_progress *)

Definition record_progress (progress_percentage : Q) (time_spent_minutes : Z)
    (notes : option string) (now : datetime) (p : StudentModuleProgress)
    : StudentModuleProgress :=
  {| smp_student_id := smp_student_id p;
     smp_module_id := smp_module_id p;
     smp_student_path_id := smp_student_path_id p;
     smp_status := smp_status p;
     smp_started_at := smp_started_at p;
     smp_completed_at := smp_completed_at p;
     smp_progress_percentage := max (smp_progress_percentage p) progress_percentage;
     smp_time_spent_minutes := smp_time_spent_minutes p + time_spent_minutes;
     smp_last_accessed := now;
     smp_notes := match notes with
                  | Some EmptyString | None => smp_notes p
                  | Some _ => notes
                  end |}.

Definition mark_completed (now : datetime) (p : StudentModuleProgress)
    : StudentModuleProgress :=
  {| smp_student_id := smp_student_id p;
     smp_module_id := smp_module_id p;
     smp_student_path_id := smp_student_path_id p;
     smp_status := "completed";
     smp_started_at := smp_started_at p;
     smp_completed_at := Some now;
     smp_progress_percentage := smp_progress_percentage p;
     smp_time_spent_minutes := smp_time_spent_minutes p;
     smp_last_accessed := smp_last_accessed p;
     smp_notes := smp_notes p |}.

Definition update_module_progress (student_id module_id : uuid)
    (progress_percentage : Q) (time_spent_minutes : Z) (notes : option string)
    (now : datetime) (d : db) : result (StudentModuleProgress * db) :=
  let* progress :=
    scalar_one_or_none
      (List.filter (is_progress_of student_id module_id) (student_module_progress d)) in
  match progress with
  | None => Raise (ValueError "Module progress not found. Start the module first.")
  | Some progress =>
      let progress :=
        record_progress progress_percentage time_spent_minutes notes now progress in
      if Qle_bool 100 (smp_progress_percentage progress) &&
         negb (smp_status progress =? "completed")%string
      then
        let progress := mark_completed now progress in
        let d := write_progress student_id module_id progress d in
        let d := _update_path_progress student_id (smp_student_path_id progress) now d in
        let* d := _check_achievements student_id now d in
        Ok (progress, d)
      else
        Ok (progress, write_progress student_id module_id progress d)
  end.

(** ** The rows a query may select

    Primary keys and [unique=True] columns hold no value twice.  The service
    itself keeps one enrolment per student and path ([assign_learning_path]),
    one progress row per student and module ([start_module]) and one
    achievement per student and type ([_award_achievement_if_new]); the
    seeded catalogue gives the active modules of a path distinct positions.
    Under these conditions no [scalar_one_or_none] of the service raises. *)

Definition module_position (m : LearningModule) : uuid * Z :=
  (lm_path_id m, lm_sort_order m).

Definition enrolment_key (sp : StudentLearningPath) : uuid * uuid :=
  (slp_student_id sp, slp_path_id sp).

Definition progress_key (p : StudentModuleProgress) : uuid * uuid :=
  (smp_student_id p, smp_module_id p).

Definition achievement_key (a : StudentAchievement) : uuid * uuid :=
  (sa_student_id a, sa_achievement_type_id a).

Record db_wf (d : db) : Prop := {
  wf_path_names : NoDup (List.map lp_name (learning_paths d));
  wf_path_slugs : NoDup (List.map lp_slug (learning_paths d));
  wf_module_ids : NoDup (List.map lm_id (learning_modules d));
  wf_module_positions :
    NoDup (List.map module_position (List.filter lm_is_active (learning_modules d)));
  wf_student_path_ids : NoDup (List.map slp_id (student_learning_paths d));
  wf_enrolments : NoDup (List.map enrolment_key (student_learning_paths d));
  wf_progress : NoDup (List.map progress_key (student_module_progress d));
  wf_type_ids : NoDup (List.map at_id (achievement_types d));
  wf_type_names : NoDup (List.map at_name (achievement_types d));
  wf_achievements : NoDup (List.map achievement_key (student_achievements d)) }.


(** ** Sequences of calls

    The router calls [start_module] and [update_module_progress]
    ([complete_module] is the latter with a percentage of 100); a call that
    raises leaves the tables as they were. *)
Inductive call : Type :=
| StartModule (student_id module_id : uuid) (now : datetime)
| UpdateModuleProgress (student_id module_id : uuid) (progress_percentage : Q)
    (time_spent_minutes : Z) (notes : option string) (now : datetime).

Definition run_call (d : db) (c : call) : db :=
  match c with
  | StartModule student_id module_id now =>
      match start_module student_id module_id now d with
      | Ok (_, d') => d'
      | Raise _ => d
      end
  | UpdateModuleProgress student_id module_id progress_percentage
      time_spent_minutes notes now =>
      match update_module_progress student_id module_id progress_percentage
              time_spent_minutes notes now d with
      | Ok (_, d') => d'
      | Raise _ => d
      end
  end.

Definition run_calls (calls : list call) (d : db) : db :=
  List.fold_left run_call calls d.






End Learning.

(* ===================================================================== *)
(** * middleware/__init__.py: the rate-limit decorators                   *)
(* ===================================================================== *)

Module RateLimit.

(** The package [app/middleware/] is what [from app.middleware import
    rate_limit_strict] loads; its three decorators share one body.
    [time.time()] is a finite binary64 number of seconds; the wrapper only
    subtracts, compares and floor-divides it, which is modelled on the
    rationals. *)

Definition time := Q.

(** A [Request]: what the wrapper reads of it, [request.client.host] (absent
    when [request.client] is [None]) and [request.state.user_id], already as
    the string [str(user_id)] (absent when the attribute is not set), and
    the parsed body that the framework hands to the endpoint function. *)
Record Request {Body : Type} := {
  client_host : option string;
  state_user_id : option string;
  body : Body }.
Arguments Request : clear implicits.

(** [_rate_limit_storage]: per key, a dict from window start to count. *)
Abbreviation storage := (gmap string (gmap Z Z)).

Definition localhost : list string := ["127.0.0.1"; "localhost"; "::1"]%string.

Section Decorators.
Context {Body App R : Type}.

Definition client_ip (request : Request Body) : string :=
  match client_host request with
  | Some host => host
  | None => "unknown"
  end.

(** [str(user_id) if user_id else client_ip] *)
Definition identifier (request : Request Body) : string :=
  match state_user_id request with
  | Some (String c s) => String c s
  | _ => client_ip request
  end.

Definition is_localhost (ip : string) : bool :=
  List.existsb (String.eqb ip) localhost.

(** [f"{func.__name__}:{identifier}"] *)
Definition storage_key (name : string) (request : Request Body) : string :=
  (name ++ ":" ++ identifier request)%string.

(** [current_time - timestamp < window] *)
Definition is_recent (current_time : time) (window : Z) (timestamp : Z) : bool :=
  negb (Qle_bool (inject_Z window) (current_time - inject_Z timestamp)).

(** The dict comprehension that drops the old entries. *)
Definition recent_entries (current_time : time) (window : Z) (entries : gmap Z Z)
    : gmap Z Z :=
  base.filter (fun entry => is_recent current_time window (fst entry) = true) entries.

(** [sum(entries.values())] *)
Definition total_requests (entries : gmap Z Z) : Z :=
  map_fold (fun _ count total => count + total) 0 entries.

(** [int(current_time // window) * window] *)
Definition window_start (current_time : time) (window : Z) : Z :=
  Qfloor (current_time / inject_Z window) * window.

Definition rate_limit_exceeded : exn :=
  HTTPException 429 "Rate limit exceeded. Too many requests.".

(** An endpoint function: it returns or raises, and leaves the application
    state (the database) as its commits made it.  It may read the clock; the
    wrapper calls it right after its own reading, which is the one the model
    passes on. *)
Definition endpoint : Type := Request Body -> time -> App -> result R * App.

(** [wrapper] of the decorator made with [requests] and [window] around the
    function called [name]. *)
Definition wrapper (requests window : Z) (name : string) (func : endpoint)
    (request : Request Body) (current_time : time) (st : storage * App)
    : result R * (storage * App) :=
  let (store, app) := st in
  if is_localhost (client_ip request)
  then
    let (response, app) := func request current_time app in
    (response, (store, app))
  else
    let key := storage_key name request in
    let entries :=
      recent_entries current_time window
        (match store !! key with Some entries => entries | None => ∅ end) in
    let total := total_requests entries in
    if requests <=? total
    then (Raise rate_limit_exceeded, (<[key := entries]> store, app))
    else
      let start := window_start current_time window in
      let count := match entries !! start with Some count => count | None => 0 end in
      let entries := <[start := count + 1]> entries in
      let (response, app) := func request current_time app in
      (response, (<[key := entries]> store, app)).

Definition rate_limit_normal := wrapper.
Definition rate_limit_relaxed := wrapper.
Definition rate_limit_strict := wrapper.

(** ** Requests over time *)

Definition event : Type := time * Request Body.

Definition serve_one (requests window : Z) (name : string) (func : endpoint)
    (st : storage * App) (e : event) : storage * App :=
  snd (wrapper requests window name func (snd e) (fst e) st).

(** The state after the requests [events], served in this order. *)
Definition serve (requests window : Z) (name : string) (func : endpoint)
    (events : list event) (st : storage * App) : storage * App :=
  List.fold_left (serve_one requests window name func) events st.

(** The dict kept for an identifier. *)
Definition entries_for (name id : string) (store : storage) : gmap Z Z :=
  match store !! (name ++ ":" ++ id)%string with
  | Some entries => entries
  | None => ∅
  end.

(** The wrapper runs [func] on this request. *)
Definition admits (requests window : Z) (name : string) (request : Request Body)
    (current_time : time) (store : storage) : bool :=
  is_localhost (client_ip request) ||
  negb (requests <=?
        total_requests
          (recent_entries current_time window
             (entries_for name (identifier request) store))).

(** What the wrapper leaves in [_rate_limit_storage]; it does not depend on
    what [func] does. *)
Definition next_store (requests window : Z) (name : string) (store : storage)
    (e : event) : storage :=
  let (current_time, request) := e in
  if is_localhost (client_ip request) then store
  else
    let entries :=
      recent_entries current_time window
        (entries_for name (identifier request) store) in
    if requests <=? total_requests entries
    then <[storage_key name request := entries]> store
    else
      let start := window_start current_time window in
      let count := match entries !! start with Some count => count | None => 0 end in
      <[storage_key name request := <[start := count + 1]> entries]> store.

Definition stores_after (requests window : Z) (name : string)
    (events : list event) (store : storage) : storage :=
  List.fold_left (next_store requests window name) events store.

(** A request that is counted for [id] in the window numbered [bucket]: it
    does not come from the local host, its identifier is [id], its time
    falls in [[bucket * window, (bucket + 1) * window)] and [func] ran. *)
Definition counts_for (requests window : Z) (name : string) (id : string)
    (bucket : Z) (store : storage) (e : event) : bool :=
  negb (is_localhost (client_ip (snd e))) &&
  (identifier (snd e) =? id)%string &&
  (Qfloor (fst e / inject_Z window) =? bucket) &&
  admits requests window name (snd e) (fst e) store.

(** How many of [events], served from [store] on, are counted for [id] in
    [bucket]. *)
Fixpoint processed (requests window : Z) (name : string) (id : string) (bucket : Z)
    (events : list event) (store : storage) : nat :=
  match events with
  | [] => 0
  | e :: rest =>
      (if counts_for requests window name id bucket store e then 1 else 0) +
      processed requests window name id bucket rest
        (next_store requests window name store e)
  end.

(** Requests in the order of their times. *)
Definition chronological (events : list event) : Prop :=
  StronglySorted (fun e e' => (fst e <= fst e')%Q) events.

(** What holds of the dict kept for [id] once [events] have been served
    from an empty storage: its keys are window starts not later than a
    served request, and for a window that no served request lies beyond, its
    count is the number of requests processed in that window. *)
Definition kept_right (requests window : Z) (name : string) (events : list event)
    (store : storage) (id : string) : Prop :=
  (forall ts count, entries_for name id store !! ts = Some count ->
     exists j, ts = j * window /\
       exists e, List.In e events /\ (inject_Z ts <= fst e)%Q) /\
  (forall bucket,
     (forall e, List.In e events -> Qfloor (fst e / inject_Z window) <= bucket) ->
     match entries_for name id store !! (bucket * window) with
     | Some count => count
     | None => 0
     end = Z.of_nat (processed requests window name id bucket events ∅)) /\
  (forall bucket,
     Z.of_nat (processed requests window name id bucket events ∅) <= requests).

End Decorators.

End RateLimit.

(* ===================================================================== *)
(** * core/security.py and routers/auth.py                                *)
(* ===================================================================== *)

Module Auth.

Definition uuid := N.
Bind Scope N_scope with uuid.
Definition datetime := Z.
Bind Scope Z_scope with datetime.

(** ** Rows

    The columns that the modelled code reads or decides on; the descriptive
    ones (names, phone, school and the like) are left out. *)
Record User := {
  user_id : uuid;
  user_email : string;
  user_password_hash : string;
  user_email_verification_token : option string;
  user_last_login : option datetime;
  user_failed_login_attempts : Z;
  user_locked_until : option datetime;
  user_is_active : bool }.

Record Student := {
  student_id : uuid;
  student_user_id : uuid;
  student_age : Z;
  student_is_active : bool }.

(** Rows of the analytics tables that the request-logging middleware
    writes through sessions of its own. *)
Record SystemMetrics := {
  metric_name : string;
  metric_endpoint : string;
  metric_method : string;
  metric_status_code : Z }.

Record ErrorLog := {
  error_type : string;
  error_endpoint : string;
  error_request_method : string }.

Record db := {
  users : list User;
  students : list Student;
  system_metrics : list SystemMetrics;
  error_logs : list ErrorLog }.

Definition set_users (d : db) (l : list User) : db :=
  {| users := l; students := students d;
     system_metrics := system_metrics d; error_logs := error_logs d |}.

(** ** settings (core/config.py), with the defaults of the class *)
Record Settings := {
  PASSWORD_MIN_LENGTH : Z;
  REQUIRE_STRONG_PASSWORDS : bool }.

Definition default_settings : Settings :=
  {| PASSWORD_MIN_LENGTH := 8; REQUIRE_STRONG_PASSWORDS := true |}.

(** ** SecurityService *)

Definition in_range (lo hi : string) (c : ascii) : bool :=
  match lo, hi with
  | String l EmptyString, String h EmptyString =>
      (nat_of_ascii l <=? nat_of_ascii c)%nat && (nat_of_ascii c <=? nat_of_ascii h)%nat
  | _, _ => false
  end.

Definition is_upper_letter (c : ascii) : bool := in_range "A" "Z" c.
Definition is_lower_letter (c : ascii) : bool := in_range "a" "z" c.
Definition is_digit (c : ascii) : bool := in_range "0" "9" c.
Definition is_letter (c : ascii) : bool := is_upper_letter c || is_lower_letter c.

Definition one_of (chars : string) (c : ascii) : bool :=
  List.existsb (Ascii.eqb c) (list_ascii_of_string chars).

(** The class of special characters of the password check; the double
    quote, which is one of them, is given by its code. *)
Definition double_quote : ascii := ascii_of_nat 34.

Definition is_special (c : ascii) : bool :=
  one_of "!@#$%^&*()_+-=[]{};':\|,.<>?" c || Ascii.eqb c double_quote.

(** [re.search(r'[...]', password)]: some character is in the class. *)
Definition search (class : ascii -> bool) (s : string) : bool :=
  List.existsb class (list_ascii_of_string s).

Definition common_passwords : list string :=
  ["password"; "123456"; "password123"; "admin"; "letmein"]%string.

Record PasswordValidation := {
  is_valid : bool;
  strength_score : Z;
  feedback : list string }.

Definition validate_password_strength (settings : Settings) (password : string)
    : PasswordValidation :=
  let step (ok : bool) (points : Z) (message : string)
           (acc : Z * list string) : Z * list string :=
    if ok then (fst acc + points, snd acc) else (fst acc, snd acc ++ [message]) in
  let acc := (0, []) in
  let acc :=
    step (PASSWORD_MIN_LENGTH settings <=? Z.of_nat (String.length password)) 2
      ("Password must be at least " ++
       NilEmpty.string_of_int (Z.to_int (PASSWORD_MIN_LENGTH settings)) ++
       " characters long")%string acc in
  let acc :=
    step (search is_upper_letter password) 1
      "Password must contain at least one uppercase letter" acc in
  let acc :=
    step (search is_lower_letter password) 1
      "Password must contain at least one lowercase letter" acc in
  let acc :=
    step (search is_digit password) 1
      "Password must contain at least one number" acc in
  let acc :=
    step (search is_special password) 2
      "Password must contain at least one special character" acc in
  let acc :=
    if List.existsb (String.eqb (lower password)) common_passwords
    then (0, snd acc ++ ["Password is too common and easily guessed"%string])
    else acc in
  {| is_valid := if REQUIRE_STRONG_PASSWORDS settings
                 then 5 <=? fst acc else 2 <=? fst acc;
     strength_score := fst acc;
     feedback := snd acc |}.

(** [validate_email]: [re.match] of
    [^[a-zA-Z0-9._%+-]+@[a-zA-Z0-9.-]+\.[a-zA-Z]{2,}$].  The local part
    cannot hold an ['@'], so it ends at the first one; the last label cannot
    hold a ['.'], so it starts after the last one; and [$] also matches
    before a final newline. *)
Definition is_local_char (c : ascii) : bool :=
  is_letter c || is_digit c || one_of "._%+-" c.

Definition is_domain_char (c : ascii) : bool :=
  is_letter c || is_digit c || one_of ".-" c.

(** The characters before and after the first [c], if it occurs. *)
Fixpoint split_first (c : ascii) (s : list ascii) : option (list ascii * list ascii) :=
  match s with
  | [] => None
  | x :: s' =>
      if Ascii.eqb x c then Some ([], s')
      else match split_first c s' with
           | Some (before, after) => Some (x :: before, after)
           | None => None
           end
  end.

(** The characters before and after the last [c], if it occurs. *)
Definition split_last (c : ascii) (s : list ascii) : option (list ascii * list ascii) :=
  match split_first c (List.rev s) with
  | Some (after, before) => Some (List.rev before, List.rev after)
  | None => None
  end.

Definition newline : ascii := ascii_of_nat 10.

Definition drop_final_newline (s : list ascii) : list ascii :=
  match List.rev s with
  | x :: before => if Ascii.eqb x newline then List.rev before else s
  | [] => s
  end.

Definition nonempty_all (class : ascii -> bool) (s : list ascii) : bool :=
  match s with
  | [] => false
  | _ :: _ => List.forallb class s
  end.

Definition validate_email (email : string) : bool :=
  match split_first "@" (list_ascii_of_string email) with
  | None => false
  | Some (local, rest) =>
      nonempty_all is_local_char local &&
      match split_last "." (drop_final_newline rest) with
      | None => false
      | Some (domain, label) =>
          nonempty_all is_domain_char domain &&
          List.forallb is_letter label && (2 <=? List.length label)%nat
      end
  end.

Definition validate_student_age (age : Z) : bool := (5 <=? age) && (age <=? 18).

(** [validate_password] and [validate_email_format]: raise a 400 or return.
    The detail of the first is a dict of a message and the feedback list;
    the message stands for it here. *)
Definition validate_password (settings : Settings) (password : string) : result unit :=
  if is_valid (validate_password_strength settings password) then Ok tt
  else Raise (HTTPException 400 "Password does not meet requirements").

Definition validate_email_format (email : string) : result unit :=
  if validate_email email then Ok tt
  else Raise (HTTPException 400 "Invalid email format").

(** ** What the routers take from outside

    [jose], [passlib] and [uuid] are libraries: a token is decoded to its
    claims or rejected (bad signature, expired, malformed), a password is
    hashed and checked against a hash, a string is parsed as a UUID or
    rejected, and a token is made for a user. *)
Section Routers.
Variable jwt_decode : string -> option (gmap string string).
Variable parse_uuid : string -> option uuid.
Variable pwd_hash : string -> string.
Variable pwd_verify : string -> string -> bool.
Variable create_access_token_for_user : uuid -> string -> string.
Variable settings : Settings.

(** [SecurityService.verify_token]: the payload, or [None] on [JWTError]. *)
Definition verify_token (token : string) : option (gmap string string) :=
  jwt_decode token.

Definition get_password_hash (password : string) : string := pwd_hash password.

Definition verify_password (plain_password hashed_password : string) : bool :=
  pwd_verify plain_password hashed_password.

(** ** get_current_user *)

Definition credentials_exception : exn :=
  HTTPException 401 "Could not validate credentials".

Definition is_active_user_with_id (id : uuid) (u : User) : bool :=
  (user_id u =? id)%N && user_is_active u.

Definition get_current_user (credentials : string) (d : db) : result User :=
  match verify_token credentials with
  | None => Raise credentials_exception
  | Some payload =>
      match payload !! "sub"%string with
      | None => Raise credentials_exception
      | Some sub =>
          match parse_uuid sub with
          | None => Raise (ValueError "badly formed hexadecimal UUID string")
          | Some id =>
              let* user :=
                scalar_one_or_none
                  (List.filter (is_active_user_with_id id) (users d)) in
              match user with
              | None => Raise credentials_exception
              | Some user => Ok user
              end
          end
      end
  end.

(** The credentials that the specification has turned down with a 401: the
    token is rejected, or its payload has no ["sub"], or its ["sub"] is the
    UUID of no active user. *)
Definition unauthenticated (credentials : string) (d : db) : Prop :=
  jwt_decode credentials = None \/
  (exists payload, jwt_decode credentials = Some payload /\
                   payload !! "sub"%string = None) \/
  (exists payload sub id,
     jwt_decode credentials = Some payload /\
     payload !! "sub"%string = Some sub /\
     parse_uuid sub = Some id /\
     forall u, List.In u (users d) -> ~ (user_id u = id /\ user_is_active u = true)).

(** An endpoint declared with [current_user: User = Depends(get_current_user)]:
    the framework resolves the dependency first and calls the function only
    if that returned. *)
Definition with_current_user {R} (body : User -> db -> result R * db)
    (credentials : string) (d : db) : result R * db :=
  match get_current_user credentials d with
  | Ok current_user => body current_user d
  | Raise e => (Raise e, d)
  end.

(** ** RequestLoggingMiddleware.dispatch (middleware/logging.py)

    The application answers an [HTTPException] with a response of its status
    code; any other exception passes through the middleware, which logs it
    and raises it again.  For the routes under [/api/] no page view is
    tracked. *)
Definition record_system_metric (endpoint method : string) (status_code : Z) (d : db)
    : db :=
  {| users := users d; students := students d;
     system_metrics :=
       system_metrics d ++
       [{| metric_name := "response_time"; metric_endpoint := endpoint;
           metric_method := method; metric_status_code := status_code |}];
     error_logs := error_logs d |}.

Definition exn_name (e : exn) : string :=
  match e with
  | MultipleResultsFound => "MultipleResultsFound"
  | ValueError _ => "ValueError"
  | IntegrityError => "IntegrityError"
  | HTTPException _ _ => "HTTPException"
  end.

Definition log_error (e : exn) (endpoint method : string) (d : db) : db :=
  {| users := users d; students := students d;
     system_metrics := system_metrics d;
     error_logs :=
       error_logs d ++
       [{| error_type := exn_name e; error_endpoint := endpoint;
           error_request_method := method |}] |}.

Definition dispatch {R} (endpoint method : string) (success_status : Z)
    (call_next : db -> result R * db) (d : db) : result R * db :=
  let (response, d) := call_next d in
  match response with
  | Ok _ => (response, record_system_metric endpoint method success_status d)
  | Raise (HTTPException status_code _) =>
      (response, record_system_metric endpoint method status_code d)
  | Raise e => (response, log_error e endpoint method d)
  end.

(** ** login *)

Record LoginRequest := {
  login_email : string;
  login_password : string }.

Record TokenResponse := {
  access_token : string;
  token_type : string;
  token_user_id : uuid;
  token_email : string;
  expires_in : Z }.

Definition minutes (n : Z) : Z := n * 60 * 1000000.

Definition is_active_user_with_email (email : string) (u : User) : bool :=
  (user_email u =? email)%string && user_is_active u.

(** The session holds the selected user; assigning to its attributes and
    committing rewrites that row. *)
Definition write_user (user : User) (d : db) : db :=
  set_users d
    (List.map (fun u => if (user_id u =? user_id user)%N then user else u) (users d)).

Definition record_failed_login (now : datetime) (u : User) : User :=
  let attempts := user_failed_login_attempts u + 1 in
  {| user_id := user_id u;
     user_email := user_email u;
     user_password_hash := user_password_hash u;
     user_email_verification_token := user_email_verification_token u;
     user_last_login := user_last_login u;
     user_failed_login_attempts := attempts;
     user_locked_until := if 5 <=? attempts then Some (now + minutes 30)
                          else user_locked_until u;
     user_is_active := user_is_active u |}.

Definition record_login (now : datetime) (u : User) : User :=
  {| user_id := user_id u;
     user_email := user_email u;
     user_password_hash := user_password_hash u;
     user_email_verification_token := user_email_verification_token u;
     user_last_login := Some now;
     user_failed_login_attempts := 0;
     user_locked_until := None;
     user_is_active := user_is_active u |}.

(** [user.locked_until and user.locked_until > datetime.utcnow()]: the
    stored instant and the present one are compared on one clock (in what
    form a driver hands back a column declared with a time zone is not
    the routers' matter). *)
Definition is_locked (now : datetime) (u : User) : bool :=
  match user_locked_until u with
  | Some locked_until => now <? locked_until
  | None => false
  end.

Definition token_response (u : User) : TokenResponse :=
  {| access_token := create_access_token_for_user (user_id u) (user_email u);
     token_type := "bearer";
     token_user_id := user_id u;
     token_email := user_email u;
     expires_in := 3600 |}.

Definition login (login_data : LoginRequest) (now : datetime) (d : db)
    : result TokenResponse * db :=
  match scalar_one_or_none
          (List.filter (is_active_user_with_email (lower (login_email login_data)))
             (users d)) with
  | Raise e => (Raise e, d)
  | Ok None => (Raise (HTTPException 401 "Incorrect email or password"), d)
  | Ok (Some user) =>
      if negb (verify_password (login_password login_data) (user_password_hash user))
      then
        (Raise (HTTPException 401 "Incorrect email or password"),
         write_user (record_failed_login now user) d)
      else if is_locked now user
      then
        (Raise (HTTPException 423
                  "Account is temporarily locked due to too many failed login attempts"),
         d)
      else
        let user := record_login now user in
        (Ok (token_response user), write_user user d)
  end.

(** [datetime.utcnow()] at the clock reading [current_time]. *)
Definition utc_now (current_time : RateLimit.time) : datetime :=
  Qfloor (current_time * 1000000).

(** [@rate_limit_strict(requests=5, window=300)] on [login]. *)
Definition login_endpoint
    : RateLimit.Request LoginRequest -> RateLimit.time ->
      RateLimit.storage * db -> result TokenResponse * (RateLimit.storage * db) :=
  RateLimit.rate_limit_strict 5 300 "login"
    (fun request current_time d =>
       login (RateLimit.body request) (utc_now current_time) d).

(** ** register *)

Record CompleteRegistration := {
  registration_email : string;
  registration_password : string;
  registration_age : Z }.

Definition has_email (email : string) (u : User) : bool :=
  (user_email u =? email)%string.

(** [db.add(new_user); await db.flush()]: the INSERT fails on a primary key
    or an email that a row already has. *)
Definition insert_user (u : User) (d : db) : result db :=
  if List.existsb (fun u' => (user_id u' =? user_id u)%N ||
                             (user_email u' =? user_email u)%string) (users d)
  then Raise IntegrityError
  else Ok (set_users d (users d ++ [u])).

Definition insert_student (s : Student) (d : db) : result db :=
  if List.existsb (fun s' => (student_id s' =? student_id s)%N) (students d) ||
     negb (List.existsb (fun u => (user_id u =? student_user_id s)%N) (users d))
  then Raise IntegrityError
  else Ok {| users := users d; students := students d ++ [s];
             system_metrics := system_metrics d; error_logs := error_logs d |}.

(** The two INSERTs of the [try] block, in one transaction: both rows or,
    on an exception, neither. *)
Definition create_user_and_student (registration_data : CompleteRegistration)
    (new_user_id new_student_id : uuid) (verification_token : string) (d : db)
    : result (User * db) :=
  let new_user :=
    {| user_id := new_user_id;
       user_email := lower (registration_email registration_data);
       user_password_hash := get_password_hash (registration_password registration_data);
       user_email_verification_token := Some verification_token;
       user_last_login := None;
       user_failed_login_attempts := 0;
       user_locked_until := None;
       user_is_active := true |} in
  let* d := insert_user new_user d in
  let new_student :=
    {| student_id := new_student_id;
       student_user_id := user_id new_user;
       student_age := registration_age registration_data;
       student_is_active := true |} in
  let* d := insert_student new_student d in
  Ok (new_user, d).

(** [new_user_id] and [new_student_id] are what [uuid.uuid4] yields for the
    two rows, [verification_token] what [generate_verification_token]
    yields. *)
Definition register (registration_data : CompleteRegistration)
    (new_user_id new_student_id : uuid) (verification_token : string) (d : db)
    : result TokenResponse * db :=
  match validate_email_format (registration_email registration_data) with
  | Raise e => (Raise e, d)
  | Ok _ =>
  match validate_password settings (registration_password registration_data) with
  | Raise e => (Raise e, d)
  | Ok _ =>
  if negb (validate_student_age (registration_age registration_data))
  then (Raise (HTTPException 400 "Student age must be between 5 and 18 years"), d)
  else
    match scalar_one_or_none
            (List.filter (has_email (registration_email registration_data))
               (users d)) with
    | Raise e => (Raise e, d)
    | Ok (Some _) =>
        (Raise (HTTPException 400 "Email address is already registered"), d)
    | Ok None =>
        match create_user_and_student registration_data new_user_id new_student_id
                verification_token d with
        | Ok (new_user, d) => (Ok (token_response new_user), d)
        | Raise _ =>
            (Raise (HTTPException 500 "Registration failed. Please try again."), d)
        end
    end
  end
  end.

End Routers.

End Auth.

(* ===================================================================== *)
(** * routers/assessments.py: the analytics endpoint                      *)
(* ===================================================================== *)

Module Assessments.

Definition uuid := N.
Bind Scope N_scope with uuid.
Definition datetime := Z.
Bind Scope Z_scope with datetime.

(** ** Rows (models/user.py, models/analytics.py) *)

Record StudentAssessment := {
  asm_id : uuid;
  asm_student_id : uuid;
  asm_is_completed : bool }.

Record AssessmentAnalytics := {
  aa_assessment_id : uuid;
  aa_created_at : datetime;
  aa_completed_at : option datetime;
  aa_total_time_seconds : option Z;
  aa_questions_answered : Z;
  aa_pause_count : Z;
  aa_window_focus_lost : Z }.

Record db := {
  students : list Auth.Student;
  student_assessments : list StudentAssessment;
  assessment_analytics : list AssessmentAnalytics }.

(** ** The response *)

Record HistoryEntry := {
  history_completed_at : option datetime;
  history_time_seconds : option Z;
  history_questions_answered : Z;
  history_pause_count : Z;
  history_focus_lost_count : Z }.

Record AnalyticsResponse := {
  response_student_id : string;
  total_assessments : Z;
  average_completion_time_minutes : number;
  average_score : number;
  assessment_history : list HistoryEntry }.

(** ** get_assessment_analytics *)

Definition is_student_of (id user : uuid) (s : Auth.Student) : bool :=
  (Auth.student_id s =? id)%N && (Auth.student_user_id s =? user)%N &&
  Auth.student_is_active s.

(** The join of [AssessmentAnalytics] with [StudentAssessment] on the
    foreign key, restricted to the completed assessments of the student. *)
Definition is_completed_row (student : uuid)
    (row : AssessmentAnalytics * StudentAssessment) : bool :=
  let (a, asm) := row in
  (aa_assessment_id a =? asm_id asm)%N &&
  (asm_student_id asm =? student)%N &&
  asm_is_completed asm.

(** [order_by(AssessmentAnalytics.created_at.desc())], as an insertion sort;
    rows created at the same instant keep the order of the table. *)
Fixpoint insert_by_created_at (a : AssessmentAnalytics)
    (sorted : list AssessmentAnalytics) : list AssessmentAnalytics :=
  match sorted with
  | [] => [a]
  | b :: rest =>
      if aa_created_at b <? aa_created_at a then a :: sorted
      else b :: insert_by_created_at a rest
  end.

Definition order_by_created_at_desc (rows : list AssessmentAnalytics)
    : list AssessmentAnalytics :=
  List.fold_right insert_by_created_at [] rows.

Definition select_analytics (student : uuid) (d : db) : list AssessmentAnalytics :=
  order_by_created_at_desc
    (List.map fst
       (List.filter (is_completed_row student)
          (List.list_prod (assessment_analytics d) (student_assessments d)))).

(** [sum(a.total_time_seconds for a in analytics_data if a.total_time_seconds)] *)
Definition sum_truthy_seconds (analytics_data : list AssessmentAnalytics) : Z :=
  List.fold_right Z.add 0
    (List.map
       (fun a => match aa_total_time_seconds a with Some t => t | None => 0 end)
       (List.filter
          (fun a => match aa_total_time_seconds a with
                    | Some t => negb (t =? 0)
                    | None => false
                    end)
          analytics_data)).

Definition history_entry (a : AssessmentAnalytics) : HistoryEntry :=
  {| history_completed_at := aa_completed_at a;
     history_time_seconds := aa_total_time_seconds a;
     history_questions_answered := aa_questions_answered a;
     history_pause_count := aa_pause_count a;
     history_focus_lost_count := aa_window_focus_lost a |}.

(** The aggregation.  [AssessmentAnalytics] declares no [assessment]
    attribute, so the generator of [avg_score] yields nothing and its sum
    is 0. *)
Definition aggregate (student_id : string) (analytics_data : list AssessmentAnalytics)
    : AnalyticsResponse :=
  let total_assessments := Z.of_nat (List.length analytics_data) in
  let seconds := sum_truthy_seconds analytics_data in
  {| response_student_id := student_id;
     total_assessments := total_assessments;
     average_completion_time_minutes :=
       if 0 <? total_assessments
       then
         (* [avg_time] is a float, false when it is zero *)
         if seconds =? 0 then Int 0
         else Float (round2 (PrimFloat.div (truediv seconds total_assessments)
                               (float_of_int 60)))
       else Int 0;
     average_score :=
       if 0 <? total_assessments
       then Float (round2 (truediv 0 total_assessments))
       else Int 0;
     assessment_history := List.map history_entry analytics_data |}.

Section Endpoint.
Variable parse_uuid : string -> option uuid.

Definition get_assessment_analytics (student_id : string)
    (current_user : Auth.User) (d : db) : result AnalyticsResponse :=
  match parse_uuid student_id with
  | None => Raise (ValueError "badly formed hexadecimal UUID string")
  | Some id =>
      let* student :=
        scalar_one_or_none
          (List.filter (is_student_of id (Auth.user_id current_user)) (students d)) in
      match student with
      | None => Raise (HTTPException 404 "Student not found")
      | Some student =>
          Ok (aggregate student_id (select_analytics (Auth.student_id student) d))
      end
  end.

End Endpoint.

(** ** What the specification speaks of *)

(** The completed assessments of a student. *)
Definition completed_assessments (student : uuid) (d : db) : list StudentAssessment :=
  List.filter (fun asm => (asm_student_id asm =? student)%N && asm_is_completed asm)
    (student_assessments d).

(** The [total_time_seconds] recorded for an assessment, 0 where none is. *)
Definition seconds_of (d : db) (asm : StudentAssessment) : Z :=
  match List.find (fun a => (aa_assessment_id a =? asm_id asm)%N)
          (assessment_analytics d) with
  | Some a => match aa_total_time_seconds a with Some t => t | None => 0 end
  | None => 0
  end.

Definition total_seconds (student : uuid) (d : db) : Z :=
  List.fold_right Z.add 0 (List.map (seconds_of d) (completed_assessments student d)).

(** The time of a row, an unset one counting as 0, and sums of times. *)
Definition seconds (a : AssessmentAnalytics) : Z :=
  match aa_total_time_seconds a with Some t => t | None => 0 end.

Definition sum (l : list Z) : Z := List.fold_right Z.add 0 l.

(** Whether some completed assessment of the student owns the row. *)
Definition owned_by_completed (student : uuid) (d : db) (a : AssessmentAnalytics) : bool :=
  List.existsb (fun asm => is_completed_row student (a, asm)) (student_assessments d).

(** The time recorded under an assessment id. *)
Definition seconds_of_id (d : db) (id : uuid) : Z :=
  match List.find (fun a => (aa_assessment_id a =? id)%N) (assessment_analytics d) with
  | Some a => seconds a
  | None => 0
  end.

(** [start_assessment] inserts an assessment together with its analytics
    row, and nothing else inserts or deletes either: every assessment has
    its one analytics row, and the foreign key of a row names an
    assessment. *)
Record analytics_kept (d : db) : Prop := {
  kept_assessment_ids : NoDup (List.map asm_id (student_assessments d));
  kept_one_row_each : NoDup (List.map aa_assessment_id (assessment_analytics d));
  kept_every_assessment :
    forall asm, List.In asm (student_assessments d) ->
      exists a, List.In a (assessment_analytics d) /\ aa_assessment_id a = asm_id asm;
  kept_foreign_key :
    forall a, List.In a (assessment_analytics d) ->
      exists asm, List.In asm (student_assessments d) /\ asm_id asm = aa_assessment_id a }.

(** The two INSERTs of [start_assessment]. *)
Definition create_assessment (id student : uuid) (now : datetime) (d : db) : result db :=
  if List.existsb (fun asm => (asm_id asm =? id)%N) (student_assessments d)
  then Raise IntegrityError
  else
    Ok {| students := students d;
          student_assessments :=
            student_assessments d ++
            [{| asm_id := id; asm_student_id := student; asm_is_completed := false |}];
          assessment_analytics :=
            assessment_analytics d ++
            [{| aa_assessment_id := id; aa_created_at := now;
                aa_completed_at := None; aa_total_time_seconds := None;
                aa_questions_answered := 0; aa_pause_count := 0;
                aa_window_focus_lost := 0 |}] |}.

End Assessments.

(* ===================================================================== *)
(** * Sample data                                                         *)
(* ===================================================================== *)

Module Fixtures.
Import Learning.

(** Two paths of the catalogue that [init_db.py] seeds, three modules of the
    first, the three achievement types, and one student (7) enrolled in the
    first path. *)
Definition seed_paths : list LearningPath :=
  [ {| lp_id := 1%N; lp_name := "Game Development"; lp_slug := "game-development";
       lp_is_active := true |};
    {| lp_id := 2%N; lp_name := "AI & Machine Learning";
       lp_slug := "ai-machine-learning"; lp_is_active := true |} ]%string.

Definition seed_module (id : uuid) (sort_order : Z) : LearningModule :=
  {| lm_id := id; lm_path_id := 1%N; lm_sort_order := sort_order;
     lm_is_active := true |}.

Definition seed_modules : list LearningModule :=
  [ seed_module 11 1; seed_module 12 2; seed_module 13 3 ].

Definition seed_achievement_types : list AchievementType :=
  [ {| at_id := 201%N; at_name := "First Steps"; at_points := 10 |};
    {| at_id := 202%N; at_name := "Quick Learner"; at_points := 25 |};
    {| at_id := 203%N; at_name := "Path Completer"; at_points := 100 |} ]%string.

Definition seed_enrolment : StudentLearningPath :=
  {| slp_id := 100%N; slp_student_id := 7%N; slp_path_id := 1%N;
     slp_started_at := None; slp_completed_at := None;
     slp_progress_percentage := 0; slp_is_active := true |}.

Definition seed_db : db :=
  {| learning_paths := seed_paths;
     learning_modules := seed_modules;
     student_learning_paths := [seed_enrolment];
     student_module_progress := [];
     achievement_types := seed_achievement_types;
     student_achievements := [] |}.

(** Student 7 has started the first module and is at 60 percent. *)
Definition started_progress : StudentModuleProgress :=
  {| smp_student_id := 7; smp_module_id := 11; smp_student_path_id := 100;
     smp_status := "in_progress"; smp_started_at := Some 1000;
     smp_completed_at := None; smp_progress_percentage := 60 # 1;
     smp_time_spent_minutes := 10; smp_last_accessed := 1000;
     smp_notes := None |}.

Definition started_db : db :=
  set_student_module_progress seed_db [started_progress].


End Fixtures.

Module AuthFixtures.
Import Auth.

(** Stand-ins for the libraries: the token ["good"] carries the subject
    ["42"], the token ["anonymous"] carries no subject, the token
    ["garbled"] carries a subject that is no UUID, every other token is
    rejected; UUIDs are written in decimal; a hash is the password behind a
    prefix. *)
Definition sample_decode (token : string) : option (gmap string string) :=
  if (token =? "good")%string then Some {[ "sub"%string := "42"%string ]}
  else if (token =? "anonymous")%string then Some ∅
  else if (token =? "garbled")%string then Some {[ "sub"%string := "not-a-uuid"%string ]}
  else None.

Definition sample_parse_uuid (s : string) : option uuid :=
  if (s =? "42")%string then Some 42%N
  else if (s =? "43")%string then Some 43%N
  else None.

Definition sample_hash (password : string) : string := ("hash:" ++ password)%string.

Definition sample_verify (password hashed : string) : bool :=
  (hashed =? sample_hash password)%string.

Definition sample_token (id : uuid) (email : string) : string :=
  ("token-for-" ++ email)%string.

Definition alice : User :=
  {| user_id := 43; user_email := "alice@example.com";
     user_password_hash := sample_hash "Secret#2024";
     user_email_verification_token := None;
     user_last_login := None;
     user_failed_login_attempts := 4;
     user_locked_until := None;
     user_is_active := true |}.

Definition sample_db : db :=
  {| users := [alice];
     students := [ {| student_id := 7; student_user_id := 43; student_age := 9;
                      student_is_active := true |} ];
     system_metrics := [];
     error_logs := [] |}.

(** A login attempt with a wrong password, from a remote host and from the
    local one. *)
Definition wrong_guess : LoginRequest :=
  {| login_email := "alice@example.com"; login_password := "guess" |}.

Definition remote_guess : RateLimit.Request LoginRequest :=
  {| RateLimit.client_host := Some "203.0.113.7"%string;
     RateLimit.state_user_id := None;
     RateLimit.body := wrong_guess |}.

Definition local_guess : RateLimit.Request LoginRequest :=
  {| RateLimit.client_host := Some "127.0.0.1"%string;
     RateLimit.state_user_id := None;
     RateLimit.body := wrong_guess |}.

Definition sample_login
    : RateLimit.Request LoginRequest -> RateLimit.time -> db ->
      result TokenResponse * db :=
  fun request current_time d =>
    login sample_verify sample_token (RateLimit.body request) (utc_now current_time) d.

End AuthFixtures.

Module AssessmentFixtures.
Import Assessments.

Definition parent : Auth.User := AuthFixtures.alice.

Definition child : Auth.Student :=
  {| Auth.student_id := 21; Auth.student_user_id := Auth.user_id parent;
     Auth.student_age := 9; Auth.student_is_active := true |}.

Definition sibling : Auth.Student :=
  {| Auth.student_id := 22; Auth.student_user_id := Auth.user_id parent;
     Auth.student_age := 12; Auth.student_is_active := true |}.

Definition analytics_row (id : uuid) (created : datetime) (seconds : option Z)
    : AssessmentAnalytics :=
  {| aa_assessment_id := id; aa_created_at := created;
     aa_completed_at := option_map (fun _ => created + 1) seconds;
     aa_total_time_seconds := seconds;
     aa_questions_answered := 10; aa_pause_count := 0;
     aa_window_focus_lost := 0 |}.

(** The child has completed two assessments, in 100 and 250 seconds, and
    has started a third; the sibling has completed one. *)
Definition sample_db : db :=
  {| students := [child; sibling];
     student_assessments :=
       [ {| asm_id := 31; asm_student_id := 21; asm_is_completed := true |};
         {| asm_id := 32; asm_student_id := 22; asm_is_completed := true |};
         {| asm_id := 33; asm_student_id := 21; asm_is_completed := true |};
         {| asm_id := 34; asm_student_id := 21; asm_is_completed := false |} ];
     assessment_analytics :=
       [ analytics_row 31 1000 (Some 100);
         analytics_row 32 2000 (Some 600);
         analytics_row 33 3000 (Some 250);
         analytics_row 34 4000 None ] |}.

Definition sample_parse_uuid (s : string) : option uuid :=
  if String.eqb s "child" then Some 21%N
  else if String.eqb s "sibling" then Some 22%N
  else None.

End AssessmentFixtures.

(* ===================================================================== *)
(** * Facts about the Python primitives                                   *)
(* ===================================================================== *)

Module PyFacts.

Lemma scalar_one_or_none_nil {A} : scalar_one_or_none (@nil A) = Ok None.
Proof. reflexivity. Qed.

Lemma scalar_one_or_none_short {A} (rows : list A) :
  (List.length rows <= 1)%nat ->
  scalar_one_or_none rows = Ok (List.head rows).
Proof.
  destruct rows as [|r [|r' rows]]; simpl; intros H; try reflexivity; lia.
Qed.

(** A query on a column that holds no value twice selects at most one row. *)
Lemma filter_unique_key {A K} (f : A -> K) (v : K) (P : A -> bool) (l : list A) :
  NoDup (List.map f l) ->
  (forall x, P x = true -> f x = v) ->
  (List.length (List.filter P l) <= 1)%nat.
Proof.
  intros Hnd HP. induction l as [|a l IH]; simpl; [lia|].
  inversion Hnd as [|? ? Hnotin Hnd']; subst.
  destruct (P a) eqn:Pa; [|auto].
  assert (Hnil : List.filter P l = []).
  { destruct (List.filter P l) as [|b q] eqn:E; [reflexivity|exfalso].
    assert (Hb : List.In b (List.filter P l)) by (rewrite E; left; reflexivity).
    apply List.filter_In in Hb as [Hin Pb].
    apply Hnotin. rewrite (HP a Pa), <- (HP b Pb). now apply List.in_map. }
  rewrite Hnil. simpl. lia.
Qed.

Lemma head_filter_Some {A} (P : A -> bool) (l : list A) (x : A) :
  List.head (List.filter P l) = Some x -> List.In x l /\ P x = true.
Proof.
  intros H. apply List.filter_In.
  destruct (List.filter P l); simpl in H; [discriminate|].
  injection H as ->. now left.
Qed.

Lemma head_filter_None {A} (P : A -> bool) (l : list A) :
  List.head (List.filter P l) = None -> forall x, List.In x l -> P x = false.
Proof.
  intros H x Hin. destruct (P x) eqn:Px; [|reflexivity].
  assert (Hx : List.In x (List.filter P l)) by (apply List.filter_In; auto).
  destruct (List.filter P l); [contradiction | discriminate].
Qed.

(** With at most one row selected, the head of the selection is that row. *)
Lemma head_filter_the {A} (P : A -> bool) (l : list A) (x : A) :
  (List.length (List.filter P l) <= 1)%nat ->
  List.In x l -> P x = true ->
  List.head (List.filter P l) = Some x.
Proof.
  intros Hlen Hin Px.
  assert (Hx : List.In x (List.filter P l)) by (apply List.filter_In; auto).
  destruct (List.filter P l) as [|a [|b q]]; simpl in *; try lia.
  destruct Hx as [->|[]]. reflexivity.
Qed.

Lemma unique_key_eq {A K} (f : A -> K) (l : list A) (x y : A) :
  NoDup (List.map f l) -> List.In x l -> List.In y l -> f x = f y -> x = y.
Proof.
  induction l as [|a l IH]; cbn; intros Hnd Hx Hy E; [contradiction|].
  inversion Hnd as [|? ? Hnotin Hnd']; subst.
  destruct Hx as [->|Hx], Hy as [->|Hy]; auto.
  - exfalso. apply Hnotin. rewrite E. now apply List.in_map.
  - exfalso. apply Hnotin. rewrite <- E. now apply List.in_map.
Qed.

(** A row inserted under a fresh key keeps the keys distinct. *)
Lemma NoDup_snoc {A} (l : list A) (x : A) :
  NoDup l -> ~ List.In x l -> NoDup (l ++ [x]).
Proof.
  intros Hl Hx. apply List.NoDup_app; [exact Hl|repeat constructor; intros []|].
  intros a Ha [<-|[]]. contradiction.
Qed.

(** ** [str.replace] with a one-character pattern *)




End PyFacts.

(* ===================================================================== *)
(** * Facts about the learning service                                    *)
(* ===================================================================== *)

Module LearningFacts.
Import Learning Fixtures PyFacts.

(** ** The recommendation lookup *)











Example find_by_exact_name :
  find_learning_path_by_name "Game Development" seed_db = Ok (List.nth_error seed_paths 0).
Proof. reflexivity. Qed.

Example find_by_slug :
  find_learning_path_by_name "game development" seed_db = Ok (List.nth_error seed_paths 0).
Proof. reflexivity. Qed.

Example find_by_keyword :
  find_learning_path_by_name "I like AI" seed_db = Ok (List.nth_error seed_paths 1).
Proof. reflexivity. Qed.

Example find_keyword_without_path :
  find_learning_path_by_name "Robots and games" seed_db = Ok (List.nth_error seed_paths 0)
  /\ find_learning_path_by_name "Robots" seed_db = Ok None
  /\ find_learning_path_by_name "Chess" seed_db = Ok None.
Proof. repeat split; reflexivity. Qed.


Ltac distinct :=
  vm_compute;
  repeat (apply NoDup_cons; [simpl; intuition congruence|]); apply NoDup_nil.

Lemma seed_db_wf : db_wf seed_db.
Proof. split; distinct. Qed.


(** ** The module lock *)

Lemma is_previous_module_true (module m : LearningModule) :
  is_previous_module module m = true <->
  lm_path_id m = lm_path_id module /\
  lm_sort_order m = lm_sort_order module - 1 /\
  lm_is_active m = true.
Proof.
  unfold is_previous_module.
  rewrite !andb_true_iff, N.eqb_eq, Z.eqb_eq. tauto.
Qed.

Lemma is_completed_progress_true (student_id module_id : uuid) p :
  is_completed_progress student_id module_id p = true <->
  smp_student_id p = student_id /\ smp_module_id p = module_id /\
  smp_status p = "completed"%string.
Proof.
  unfold is_completed_progress.
  rewrite !andb_true_iff, !N.eqb_eq, String.eqb_eq. tauto.
Qed.

Lemma is_progress_of_true (student_id module_id : uuid) p :
  is_progress_of student_id module_id p = true <->
  smp_student_id p = student_id /\ smp_module_id p = module_id.
Proof.
  unfold is_progress_of. rewrite andb_true_iff, !N.eqb_eq. tauto.
Qed.

Lemma is_active_enrolment_true (student_id path_id : uuid) sp :
  is_active_enrolment student_id path_id sp = true <->
  slp_student_id sp = student_id /\ slp_path_id sp = path_id /\
  slp_is_active sp = true.
Proof.
  unfold is_active_enrolment. rewrite !andb_true_iff, !N.eqb_eq. tauto.
Qed.

Lemma filter_filter_implied {A} (P Q : A -> bool) (l : list A) :
  (forall x, P x = true -> Q x = true) ->
  List.filter P l = List.filter P (List.filter Q l).
Proof.
  intros H. induction l as [|a l IH]; simpl; [reflexivity|].
  destruct (P a) eqn:Pa.
  - rewrite (H a Pa). simpl. now rewrite Pa, IH.
  - destruct (Q a); simpl; [now rewrite Pa|exact IH].
Qed.

Section SingleRows.
Variable d : db.
Hypothesis wf : db_wf d.

Lemma module_by_id_at_most_one module_id :
  (List.length (List.filter (has_module_id module_id) (learning_modules d)) <= 1)%nat.
Proof.
  apply (filter_unique_key lm_id module_id); [apply wf|].
  intros x Hx. now apply N.eqb_eq in Hx.
Qed.

Lemma previous_module_at_most_one module :
  (List.length (List.filter (is_previous_module module) (learning_modules d)) <= 1)%nat.
Proof.
  rewrite (filter_filter_implied _ lm_is_active).
  - apply (filter_unique_key module_position
             (lm_path_id module, lm_sort_order module - 1)); [apply wf|].
    intros x Hx. apply is_previous_module_true in Hx as (H1 & H2 & _).
    unfold module_position. now rewrite H1, H2.
  - intros x Hx. now apply is_previous_module_true in Hx.
Qed.

Lemma enrolment_at_most_one student_id path_id :
  (List.length (List.filter (is_active_enrolment student_id path_id)
                  (student_learning_paths d)) <= 1)%nat.
Proof.
  apply (filter_unique_key enrolment_key (student_id, path_id)); [apply wf|].
  intros x Hx. apply is_active_enrolment_true in Hx as (<- & <- & _). reflexivity.
Qed.

Lemma progress_at_most_one student_id module_id :
  (List.length (List.filter (is_progress_of student_id module_id)
                  (student_module_progress d)) <= 1)%nat.
Proof.
  apply (filter_unique_key progress_key (student_id, module_id)); [apply wf|].
  intros x Hx. apply is_progress_of_true in Hx as (<- & <-). reflexivity.
Qed.

Lemma completed_progress_at_most_one student_id module_id :
  (List.length (List.filter (is_completed_progress student_id module_id)
                  (student_module_progress d)) <= 1)%nat.
Proof.
  apply (filter_unique_key progress_key (student_id, module_id)); [apply wf|].
  intros x Hx. apply is_completed_progress_true in Hx as (<- & <- & _). reflexivity.
Qed.

(** What [_is_module_locked] answers, and that it answers. *)
Lemma is_module_locked_spec student_id module :
  exists locked, _is_module_locked student_id module d = Ok locked /\
    (locked = true <->
     1 < lm_sort_order module /\
     exists previous,
       List.In previous (learning_modules d) /\
       lm_is_active previous = true /\
       lm_path_id previous = lm_path_id module /\
       lm_sort_order previous = lm_sort_order module - 1 /\
       forall p, List.In p (student_module_progress d) ->
         ~ (smp_student_id p = student_id /\
            smp_module_id p = lm_id previous /\
            smp_status p = "completed"%string)).
Proof.
  unfold _is_module_locked.
  destruct (lm_sort_order module <=? 1) eqn:Hfirst.
  { exists false. split; [reflexivity|]. apply Z.leb_le in Hfirst.
    split; [discriminate | intros [H _]; lia]. }
  apply Z.leb_gt in Hfirst.
  rewrite (scalar_one_or_none_short _ (previous_module_at_most_one module)).
  cbn [bind].
  destruct (List.head (List.filter (is_previous_module module) (learning_modules d)))
    as [previous|] eqn:Eprev.
  2:{ exists false. split; [reflexivity|]. split; [discriminate|].
      intros (_ & previous & Hin & Hact & Hpath & Hord & _). exfalso.
      pose proof (head_filter_None _ _ Eprev previous Hin) as Hf.
      assert (Ht : is_previous_module module previous = true)
        by now apply is_previous_module_true.
      congruence. }
  apply head_filter_Some in Eprev as Hprev. destruct Hprev as [Hin Hprev].
  apply is_previous_module_true in Hprev as Hp. destruct Hp as (Hpath & Hord & Hact).
  rewrite (scalar_one_or_none_short _
             (completed_progress_at_most_one student_id (lm_id previous))).
  cbn [bind].
  destruct (List.head (List.filter (is_completed_progress student_id (lm_id previous))
                         (student_module_progress d))) as [done|] eqn:Edone.
  - exists false. split; [reflexivity|]. split; [discriminate|].
    intros (_ & previous' & Hin' & Hact' & Hpath' & Hord' & Hnone). exfalso.
    assert (previous' = previous) as ->.
    { assert (Ht : is_previous_module module previous' = true)
        by now apply is_previous_module_true.
      pose proof (head_filter_the _ _ previous'
                    (previous_module_at_most_one module) Hin' Ht) as E.
      congruence. }
    apply head_filter_Some in Edone as [Hdin Hdone].
    apply is_completed_progress_true in Hdone. exact (Hnone done Hdin Hdone).
  - exists true. split; [reflexivity|]. split; [|reflexivity]. intros _.
    split; [exact Hfirst|]. exists previous. repeat (split; [assumption|]).
    intros p Hpin Hp. apply is_completed_progress_true in Hp.
    pose proof (head_filter_None _ _ Edone p Hpin). congruence.
Qed.

(** [start_module] raises in three cases and in no other. *)
Lemma start_module_raises student_id module_id now :
  (exists e, start_module student_id module_id now d = Raise e) <->
  ((forall m, List.In m (learning_modules d) -> lm_id m <> module_id) \/
   exists module,
     List.In module (learning_modules d) /\ lm_id module = module_id /\
     ((forall sp, List.In sp (student_learning_paths d) ->
         ~ (slp_student_id sp = student_id /\
            slp_path_id sp = lm_path_id module /\
            slp_is_active sp = true)) \/
      _is_module_locked student_id module d = Ok true)).
Proof.
  unfold start_module.
  rewrite (scalar_one_or_none_short _ (module_by_id_at_most_one module_id)).
  cbn [bind].
  destruct (List.head (List.filter (has_module_id module_id) (learning_modules d)))
    as [module|] eqn:Emod.
  2:{ split; [intros _|intros _; eexists; reflexivity].
      left. intros m Hin Hid.
      pose proof (head_filter_None _ _ Emod m Hin) as Hf.
      unfold has_module_id in Hf. apply N.eqb_neq in Hf. contradiction. }
  apply head_filter_Some in Emod as Hmod. destruct Hmod as [Hin Hid].
  apply N.eqb_eq in Hid.
  assert (Hthe : forall m, List.In m (learning_modules d) -> lm_id m = module_id ->
                           m = module).
  { intros m Hm Hmid.
    assert (Ht : has_module_id module_id m = true) by now apply N.eqb_eq.
    pose proof (head_filter_the _ _ m (module_by_id_at_most_one module_id) Hm Ht).
    congruence. }
  rewrite (scalar_one_or_none_short _
             (enrolment_at_most_one student_id (lm_path_id module))).
  cbn [bind].
  destruct (List.head (List.filter (is_active_enrolment student_id (lm_path_id module))
                         (student_learning_paths d))) as [student_path|] eqn:Eenr.
  2:{ split; [intros _|intros _; eexists; reflexivity].
      right. exists module. split; [exact Hin|]. split; [exact Hid|]. left.
      intros sp Hsp Hen. apply is_active_enrolment_true in Hen.
      pose proof (head_filter_None _ _ Eenr sp Hsp). congruence. }
  apply head_filter_Some in Eenr as [Hspin Hsp].
  apply is_active_enrolment_true in Hsp.
  destruct (is_module_locked_spec student_id module) as (locked & Elock & _).
  rewrite Elock. cbn [bind].
  destruct locked.
  { split; [intros _|intros _; eexists; reflexivity].
    right. exists module. split; [exact Hin|]. split; [exact Hid|]. now right. }
  rewrite (scalar_one_or_none_short _ (progress_at_most_one student_id module_id)).
  cbn [bind].
  split.
  - intros [e He].
    destruct (List.head _) in He; discriminate.
  - intros [Hnone|(module' & Hin' & Hid' & [Hnone|Hlocked])]; exfalso.
    + exact (Hnone module Hin Hid).
    + rewrite (Hthe module' Hin' Hid') in Hnone. exact (Hnone student_path Hspin Hsp).
    + rewrite (Hthe module' Hin' Hid') in Hlocked. congruence.
Qed.

End SingleRows.

Example third_module_locked_at_first :
  _is_module_locked 7 (seed_module 12 2) seed_db = Ok true.
Proof. reflexivity. Qed.

Example first_module_starts :
  exists p d', start_module 7 11 1000 seed_db = Ok (p, d') /\
               student_module_progress d' = [p] /\
               smp_status p = "in_progress"%string.
Proof. do 2 eexists. repeat split. Qed.

(** C2, as the code has it.  In a database whose queries select single rows:
    a module with [sort_order <= 1] is never locked; a module with a greater
    [sort_order] is locked exactly when the same path has an active module one
    position before it for which the student has no completed progress
    record; and [start_module] raises, so that no progress record is created
    or updated, exactly when the module does not exist, or the student has no
    active enrolment in its path, or the module is locked. *)
Theorem module_locking (d : db) (student_id : uuid) :
  db_wf d ->
  (forall module, lm_sort_order module <= 1 ->
     _is_module_locked student_id module d = Ok false) /\
  (forall module, 1 < lm_sort_order module ->
     exists locked, _is_module_locked student_id module d = Ok locked /\
       (locked = true <->
        exists previous,
          List.In previous (learning_modules d) /\
          lm_is_active previous = true /\
          lm_path_id previous = lm_path_id module /\
          lm_sort_order previous = lm_sort_order module - 1 /\
          forall p, List.In p (student_module_progress d) ->
            ~ (smp_student_id p = student_id /\
               smp_module_id p = lm_id previous /\
               smp_status p = "completed"%string))) /\
  (forall module_id now,
     (exists e, start_module student_id module_id now d = Raise e) <->
     ((forall m, List.In m (learning_modules d) -> lm_id m <> module_id) \/
      exists module,
        List.In module (learning_modules d) /\ lm_id module = module_id /\
        ((forall sp, List.In sp (student_learning_paths d) ->
            ~ (slp_student_id sp = student_id /\
               slp_path_id sp = lm_path_id module /\
               slp_is_active sp = true)) \/
         _is_module_locked student_id module d = Ok true))).
Proof.
  intros wf. split; [|split].
  - intros module Hfirst. unfold _is_module_locked.
    apply Z.leb_le in Hfirst. now rewrite Hfirst.
  - intros module Hlater.
    destruct (is_module_locked_spec d wf student_id module) as (locked & E & Hiff).
    exists locked. split; [exact E|]. rewrite Hiff. tauto.
  - intros module_id now. now apply start_module_raises.
Qed.

Lemma module_locking_witness :
  _is_module_locked 7 (seed_module 11 1) seed_db = Ok false /\
  exists e, start_module 7 12 1000 seed_db = Raise e.
Proof.
  destruct (module_locking seed_db 7 seed_db_wf) as (Hfirst & _ & Hraise).
  split.
  - apply Hfirst. simpl. lia.
  - apply Hraise. right. exists (seed_module 12 2).
    split; [simpl; tauto|]. split; [reflexivity|]. right. reflexivity.
Defined.

(** C2 as first stated fails: [start_module] also raises for a module that
    is not locked, here the first module of a path the student (8) is not
    enrolled in. *)
Lemma start_module_raises_unlocked :
  _is_module_locked 8 (seed_module 11 1) seed_db = Ok false /\
  start_module 8 11 1000 seed_db =
    Raise (ValueError "Student does not have access to this module's learning path").
Proof. split; reflexivity. Qed.

(** ** Achievements *)








(** ** Writes keep the rows single *)





(** ** update_module_progress *)


(** ** start_module *)



(** ** The record of one student and module across calls *)













Lemma max_ge_r (a b : Q) : (b <= max a b)%Q.
Proof.
  unfold max. destruct (Qle_bool b a) eqn:E; [now apply Qle_bool_iff|apply Qle_refl].
Qed.










Example update_keeps_the_maximum :
  exists p d',
    update_module_progress 7 11 (40 # 1) 5 None 2000 started_db = Ok (p, d') /\
    smp_progress_percentage p = (60 # 1)%Q /\
    smp_time_spent_minutes p = 15.
Proof. do 2 eexists. repeat split. Qed.




Example three_completions_in_a_day :
  let d := run_calls
             [ StartModule 7 11 1000;
               UpdateModuleProgress 7 11 (100 # 1) 30 None 2000;
               StartModule 7 12 3000;
               UpdateModuleProgress 7 12 (100 # 1) 30 None 4000;
               StartModule 7 13 5000;
               UpdateModuleProgress 7 13 (100 # 1) 30 None 6000;
               UpdateModuleProgress 7 13 (100 # 1) 1 None 7000 ] seed_db in
  List.map sa_achievement_type_id (student_achievements d) = [201; 202; 203]%N /\
  List.map slp_progress_percentage (student_learning_paths d) = [100] /\
  List.map slp_completed_at (student_learning_paths d) = [Some 6000].
Proof. vm_compute. repeat split. Qed.



(** ** The path percentage *)

Example percentage_one_of_three : path_percentage 1 3 = 33.
Proof. reflexivity. Qed.

Example percentage_all : path_percentage 3 3 = 100.
Proof. reflexivity. Qed.

Example percentage_no_modules : path_percentage 2 0 = 0.
Proof. reflexivity. Qed.

(** In binary64, [29 / 50 * 100] falls just short of 58. *)
Example percentage_29_of_50 : path_percentage 29 50 = 57 /\ 100 * 29 / 50 = 58.
Proof. split; reflexivity. Qed.








Example completing_one_of_three :
  exists p d',
    update_module_progress 7 11 (100 # 1) 5 None 2000 started_db = Ok (p, d') /\
    List.map slp_progress_percentage (student_learning_paths d') = [33] /\
    List.map slp_started_at (student_learning_paths d') = [Some 2000] /\
    List.map slp_completed_at (student_learning_paths d') = [None].
Proof. do 2 eexists. repeat split. Qed.




End LearningFacts.

(* ===================================================================== *)
(** * Facts about the rate limiter                                        *)
(* ===================================================================== *)

Module RateLimitFacts.
Import RateLimit.

(** ** Windows *)

(** The window numbered [b] holds the times from [b * window] up to, not
    including, [(b + 1) * window]. *)
Lemma bucket_spec (t : time) (window b : Z) :
  0 < window ->
  Qfloor (t / inject_Z window) = b <->
  (inject_Z (b * window) <= t /\ t < inject_Z ((b + 1) * window))%Q.
Proof.
  intros Hw.
  assert (Hq : (0 < inject_Z window)%Q) by (rewrite <- (Zlt_Qlt 0); exact Hw).
  assert (Hne : ~ (inject_Z window == 0)%Q) by (intros E; rewrite E in Hq; lra).
  assert (Ht : (t / inject_Z window * inject_Z window == t)%Q)
    by (field; exact Hne).
  rewrite !inject_Z_mult. split.
  - intros <-. split.
    + rewrite <- Ht at 2. apply Qmult_le_r; [exact Hq|]. apply Qfloor_le.
    + rewrite <- Ht at 1. apply Qmult_lt_r; [exact Hq|]. apply Qlt_floor.
  - intros [Hlo Hhi].
    apply Qle_shift_div_l in Hlo; [|exact Hq].
    apply Qlt_shift_div_r in Hhi; [|exact Hq].
    apply Qfloor_resp_le in Hlo. rewrite Qfloor_Z in Hlo.
    pose proof (Qfloor_le (t / inject_Z window)) as Hfl.
    assert (Hlt : (inject_Z (Qfloor (t / inject_Z window)) < inject_Z (b + 1))%Q)
      by (eapply Qle_lt_trans; eassumption).
    rewrite <- Zlt_Qlt in Hlt. lia.
Qed.

Lemma window_start_le (t : time) (window : Z) :
  0 < window -> (inject_Z (window_start t window) <= t)%Q.
Proof.
  intros Hw. unfold window_start.
  now apply (bucket_spec t window (Qfloor (t / inject_Z window))).
Qed.

Lemma bucket_mono (t t' : time) (window : Z) :
  0 < window -> (t <= t')%Q ->
  Qfloor (t / inject_Z window) <= Qfloor (t' / inject_Z window).
Proof.
  intros Hw Hle.
  assert (Hq : (0 < inject_Z window)%Q) by (rewrite <- (Zlt_Qlt 0); exact Hw).
  apply Qfloor_resp_le. unfold Qdiv. apply Qmult_le_r; [|exact Hle].
  now apply Qinv_lt_0_compat.
Qed.

(** A window start that is not in the future is recent exactly if it is the
    start of the current window. *)
Lemma is_recent_bucket (t : time) (window j : Z) :
  0 < window -> (inject_Z (j * window) <= t)%Q ->
  is_recent t window (j * window) = true <-> j = Qfloor (t / inject_Z window).
Proof.
  intros Hw Hpast. unfold is_recent.
  rewrite negb_true_iff, <- not_true_iff_false, Qle_bool_iff.
  assert (Hnext : inject_Z ((j + 1) * window)
                  = (inject_Z (j * window) + inject_Z window)%Q).
  { rewrite <- inject_Z_plus. f_equal. ring. }
  split.
  - intros Hrecent. symmetry. apply bucket_spec; [exact Hw|].
    split; [exact Hpast|]. rewrite Hnext.
    apply Qnot_le_lt in Hrecent. lra.
  - intros Hj. symmetry in Hj. apply bucket_spec in Hj as [_ Hhi]; [|exact Hw].
    rewrite Hnext in Hhi. apply Qlt_not_le. lra.
Qed.

(** ** The dictionaries *)

Lemma lookup_recent_entries (t : time) (window : Z) (entries : gmap Z Z) (ts : Z) :
  recent_entries t window entries !! ts
  = if is_recent t window ts then entries !! ts else None.
Proof.
  unfold recent_entries. destruct (is_recent t window ts) eqn:E.
  - destruct (entries !! ts) as [c|] eqn:Ec.
    + apply map_lookup_filter_Some. split; [exact Ec|exact E].
    + apply map_lookup_filter_None. now left.
  - apply map_lookup_filter_None. right. intros c _. cbn. congruence.
Qed.

(** The sum over a dict with at most the key [a]. *)
Lemma total_requests_single (entries : gmap Z Z) (a : Z) :
  (forall ts, ts <> a -> entries !! ts = None) ->
  total_requests entries
  = match entries !! a with Some count => count | None => 0 end.
Proof.
  intros Honly. unfold total_requests. destruct (entries !! a) as [c|] eqn:Ea.
  - assert (entries = {[a := c]}) as ->.
    { apply map_eq. intros ts. destruct (decide (ts = a)) as [->|Hne].
      - now rewrite lookup_singleton_eq.
      - rewrite lookup_singleton_ne by congruence. now apply Honly. }
    rewrite map_fold_singleton. lia.
  - assert (entries = ∅) as ->.
    { apply map_empty. intros ts. destruct (decide (ts = a)) as [->|Hne]; auto. }
    apply map_fold_empty.
Qed.

Section Requests.
Context {Body : Type}.

Lemma append_inj_l (s a b : string) : (s ++ a = s ++ b)%string -> a = b.
Proof. induction s as [|c s IH]; cbn; [auto|]. intros [= H]. auto. Qed.

Lemma storage_key_inj (name : string) (r r' : Request Body) :
  storage_key name r = storage_key name r' -> identifier r = identifier r'.
Proof.
  unfold storage_key. intros H. apply append_inj_l in H.
  now apply (append_inj_l ":") in H.
Qed.

(** ** One request *)

Section OneEndpoint.
Context {App R : Type}.
Variables (requests window : Z) (name : string) (func : @endpoint Body App R).

Lemma wrapper_store request current_time store app :
  fst (snd (wrapper requests window name func request current_time (store, app)))
  = next_store requests window name store (current_time, request).
Proof.
  unfold wrapper, next_store, entries_for, storage_key.
  destruct (is_localhost (client_ip request)).
  - now destruct (func request current_time app).
  - destruct (requests <=? _); [reflexivity|].
    now destruct (func request current_time app).
Qed.

(** A request that is not admitted is answered with the 429 exception and
    [func] has no part in the answer; an admitted one is answered by [func]. *)
Lemma wrapper_response request current_time store app :
  wrapper requests window name func request current_time (store, app)
  = if admits requests window name request current_time store
    then (fst (func request current_time app),
          (next_store requests window name store (current_time, request),
           snd (func request current_time app)))
    else (Raise rate_limit_exceeded,
          (next_store requests window name store (current_time, request), app)).
Proof.
  unfold wrapper, admits, next_store, entries_for, storage_key.
  destruct (is_localhost (client_ip request)); cbn.
  - now destruct (func request current_time app).
  - destruct (requests <=? _); cbn; [reflexivity|].
    now destruct (func request current_time app).
Qed.

Lemma serve_store events store app :
  fst (serve requests window name func events (store, app))
  = stores_after requests window name events store.
Proof.
  unfold serve, stores_after. revert store app.
  induction events as [|[t r] events IH]; intros store app; [reflexivity|].
  cbn [List.fold_left].
  rewrite <- (wrapper_store r t store app).
  change (snd (wrapper requests window name func r t (store, app)))
    with (serve_one requests window name func (store, app) (t, r)).
  destruct (serve_one requests window name func (store, app) (t, r))
    as [store' app'].
  apply IH.
Qed.

End OneEndpoint.

(** ** The counts along a sequence of requests *)

Section Counting.
Variables (requests window : Z) (name : string).
Hypothesis window_pos : 0 < window.
Hypothesis requests_nonneg : 0 <= requests.

Lemma stores_after_snoc (events : list (@event Body)) e store :
  stores_after requests window name (events ++ [e]) store
  = next_store requests window name (stores_after requests window name events store) e.
Proof. unfold stores_after. now rewrite List.fold_left_app. Qed.

Lemma processed_snoc id bucket (events : list (@event Body)) e store :
  processed requests window name id bucket (events ++ [e]) store
  = (processed requests window name id bucket events store +
     if counts_for requests window name id bucket
          (stores_after requests window name events store) e
     then 1 else 0)%nat.
Proof.
  revert store. induction events as [|e' events IH]; intros store; cbn.
  - lia.
  - rewrite IH. unfold stores_after. cbn. lia.
Qed.

Lemma chronological_snoc (events : list (@event Body)) e :
  chronological (events ++ [e]) ->
  chronological events /\ forall e', List.In e' events -> (fst e' <= fst e)%Q.
Proof.
  unfold chronological. induction events as [|a events IH]; cbn; intros H.
  - split; [constructor|intros ? []].
  - inversion H as [|? ? Hs Hall]; subst. destruct (IH Hs) as [Hc Hle].
    split.
    + constructor; [exact Hc|].
      apply List.Forall_forall. intros x Hx.
      rewrite List.Forall_forall in Hall. apply Hall, List.in_or_app. now left.
    + intros e' [<-|Hin]; [|now apply Hle].
      rewrite List.Forall_forall in Hall. apply Hall, List.in_or_app.
      right. now left.
Qed.

Lemma entries_for_other id (store : storage) key (entries : gmap Z Z) :
  key <> (name ++ ":" ++ id)%string ->
  entries_for name id (<[key := entries]> store) = entries_for name id store.
Proof. intros Hne. unfold entries_for. now rewrite lookup_insert_ne. Qed.

Lemma entries_for_same id (store : storage) (entries : gmap Z Z) :
  entries_for name id (<[(name ++ ":" ++ id)%string := entries]> store) = entries.
Proof. unfold entries_for. now rewrite lookup_insert_eq. Qed.

Lemma recent_only_current (entries : gmap Z Z) (events : list (@event Body))
    (t : time) :
  (forall ts count, entries !! ts = Some count ->
     exists j, ts = j * window /\
       exists e, List.In e events /\ (inject_Z ts <= fst e)%Q) ->
  (forall e, List.In e events -> (fst e <= t)%Q) ->
  forall ts,
    recent_entries t window entries !! ts
    = if decide (ts = window_start t window) then entries !! ts else None.
Proof.
  intros Hkeys Hpast ts. rewrite lookup_recent_entries.
  destruct (decide (ts = window_start t window)) as [->|Hne].
  - assert (E : is_recent t window (window_start t window) = true).
    { apply is_recent_bucket; [exact window_pos| |reflexivity].
      now apply window_start_le. }
    now rewrite E.
  - destruct (entries !! ts) as [c|] eqn:E; [|now destruct (is_recent t window ts)].
    destruct (Hkeys ts c E) as (j & -> & e & Hin & Hle).
    destruct (is_recent t window (j * window)) eqn:Er; [|reflexivity].
    exfalso. apply Hne. apply is_recent_bucket in Er; [now subst j|exact window_pos|].
    eapply Qle_trans; [exact Hle|]. now apply Hpast.
Qed.

Lemma beyond_current (entries : gmap Z Z) (events : list (@event Body))
    (t : time) bucket :
  (forall ts count, entries !! ts = Some count ->
     exists j, ts = j * window /\
       exists e, List.In e events /\ (inject_Z ts <= fst e)%Q) ->
  (forall e, List.In e events -> (fst e <= t)%Q) ->
  Qfloor (t / inject_Z window) < bucket ->
  entries !! (bucket * window) = None.
Proof.
  intros Hkeys Hpast Hlater.
  destruct (entries !! (bucket * window)) as [c|] eqn:E; [exfalso|reflexivity].
  destruct (Hkeys _ c E) as (j & _ & e & Hin & Hle).
  assert (Hb : (inject_Z (bucket * window) <= t)%Q)
    by (eapply Qle_trans; [exact Hle|now apply Hpast]).
  destruct (proj1 (bucket_spec t window _ window_pos) eq_refl) as [_ Hhi].
  assert (Hlt : (inject_Z (bucket * window)
                 < inject_Z ((Qfloor (t / inject_Z window) + 1) * window))%Q)
    by (eapply Qle_lt_trans; eassumption).
  rewrite <- Zlt_Qlt in Hlt. nia.
Qed.

(** The dicts are kept right along every chronological sequence of
    requests. *)
Lemma kept_right_holds (events : list (@event Body)) (id : string) :
  chronological events ->
  kept_right requests window name events
    (stores_after requests window name events ∅) id.
Proof.
  revert id. induction events as [|[t r] events IH] using List.rev_ind;
    intros id Hchron.
  { split; [|split].
    - intros ts c H. unfold entries_for in H. cbn in H.
      rewrite lookup_empty in H. now rewrite lookup_empty in H.
    - intros bucket _. unfold entries_for. cbn. rewrite lookup_empty.
      now rewrite lookup_empty.
    - intros bucket. cbn. exact requests_nonneg. }
  destruct (chronological_snoc _ _ Hchron) as [Hchron' Hpast]. cbn [fst] in Hpast.
  specialize (fun id => IH id Hchron').
  rewrite stores_after_snoc.
  set (store := stores_after requests window name events ∅) in *.
  set (b := Qfloor (t / inject_Z window)).
  assert (Hbuckets : forall e, List.In e events ->
            Qfloor (fst e / inject_Z window) <= b).
  { intros e He. apply bucket_mono; [exact window_pos|now apply Hpast]. }
  assert (Hsnoc : forall bucket,
            processed requests window name id bucket (events ++ [(t, r)]) ∅
            = (processed requests window name id bucket events ∅ +
               if counts_for requests window name id bucket store (t, r)
               then 1 else 0)%nat).
  { intros bucket. apply processed_snoc. }
  assert (Hin_snoc : forall e, List.In e events -> List.In e (events ++ [(t, r)])).
  { intros e He. apply List.in_or_app. now left. }
  assert (Hlast : List.In (t, r) (events ++ [(t, r)])).
  { apply List.in_or_app. right. now left. }
  destruct (IH id) as (K1 & K2 & K3).
  (* requests that leave the dict of [id] alone *)
  assert (Hframe :
    entries_for name id (next_store requests window name store (t, r))
    = entries_for name id store ->
    (forall bucket, counts_for requests window name id bucket store (t, r) = false) ->
    kept_right requests window name (events ++ [(t, r)])
      (next_store requests window name store (t, r)) id).
  { intros Hsame Hcount. split; [|split].
    - intros ts c H. rewrite Hsame in H.
      destruct (K1 ts c H) as (j & Hj & e & He & Hle).
      exists j. split; [exact Hj|]. exists e. split; [now apply Hin_snoc|exact Hle].
    - intros bucket Hall. rewrite Hsame, Hsnoc, Hcount, Nat.add_0_r.
      apply K2. intros e He. now apply Hall, Hin_snoc.
    - intros bucket. rewrite Hsnoc, Hcount, Nat.add_0_r. apply K3. }
  destruct (is_localhost (client_ip r)) eqn:Eloc.
  { apply Hframe.
    - unfold next_store. now rewrite Eloc.
    - intros bucket. unfold counts_for. cbn [fst snd]. now rewrite Eloc. }
  destruct (String.eqb_spec (identifier r) id) as [Eid|Eid].
  2:{ apply Hframe.
      - assert (Hkey : storage_key name r <> (name ++ ":" ++ id)%string).
        { unfold storage_key. intros H. apply append_inj_l in H.
          now apply (append_inj_l ":") in H. }
        unfold next_store. rewrite Eloc.
        destruct (requests <=? _); now apply entries_for_other.
      - intros bucket. unfold counts_for. cbn [fst snd].
        apply String.eqb_neq in Eid. rewrite Eid. now rewrite andb_false_r. }
  subst id.
  set (entries := entries_for name (identifier r) store) in *.
  pose proof (recent_only_current entries events t K1 Hpast) as Hrecent.
  set (recent := recent_entries t window entries) in *.
  assert (Hws : window_start t window = b * window) by reflexivity.
  assert (Htotal : total_requests recent
                   = Z.of_nat (processed requests window name (identifier r) b events ∅)).
  { rewrite (total_requests_single recent (window_start t window)).
    - rewrite Hrecent. destruct (decide _) as [_|Hne]; [|contradiction].
      rewrite Hws. now apply K2.
    - intros ts Hne. rewrite Hrecent. now destruct (decide _). }
  assert (Hother : forall bucket, b < bucket ->
            processed requests window name (identifier r) bucket events ∅ = 0%nat).
  { intros bucket Hlt.
    assert (H0 : Z.of_nat (processed requests window name (identifier r) bucket
                             events ∅) = 0).
    { rewrite <- K2 by (intros e He; specialize (Hbuckets e He); lia).
      now rewrite (beyond_current entries events t bucket K1 Hpast Hlt). }
    lia. }
  assert (Hcounts : forall bucket,
            counts_for requests window name (identifier r) bucket store (t, r)
            = (b =? bucket) && negb (requests <=? total_requests recent)).
  { intros bucket. unfold counts_for, admits. cbn [fst snd].
    now rewrite Eloc, String.eqb_refl. }
  unfold next_store. rewrite Eloc. fold entries. fold recent.
  destruct (requests <=? total_requests recent) eqn:Elim.
  - (* over the limit: the request is turned away *)
    split; [|split].
    + intros ts c H. unfold storage_key in H. rewrite entries_for_same in H.
      rewrite Hrecent in H. destruct (decide _) as [->|]; [|discriminate].
      destruct (K1 _ c H) as (j & Hj & e & He & Hle).
      exists j. split; [exact Hj|]. exists e. split; [now apply Hin_snoc|exact Hle].
    + intros bucket Hall. unfold storage_key. rewrite entries_for_same.
      rewrite Hsnoc, Hcounts, andb_false_r, Nat.add_0_r.
      assert (Hge : b <= bucket) by (apply (Hall (t, r)), Hlast).
      rewrite Hrecent. destruct (decide _) as [Heq|Hne].
      * apply K2. intros e He. now apply Hall, Hin_snoc.
      * assert (b < bucket) by (rewrite Hws in Hne; nia).
        now rewrite Hother.
    + intros bucket. rewrite Hsnoc, Hcounts, andb_false_r, Nat.add_0_r. apply K3.
  - (* under the limit: the request is counted *)
    apply Z.leb_gt in Elim.
    assert (Hcount : match recent !! window_start t window with
                     | Some count => count
                     | None => 0
                     end = total_requests recent).
    { rewrite (total_requests_single recent (window_start t window)); [reflexivity|].
      intros ts Hne. rewrite Hrecent. now destruct (decide _). }
    rewrite Hcount.
    split; [|split].
    + intros ts c H. unfold storage_key in H. rewrite entries_for_same in H.
      destruct (decide (ts = window_start t window)) as [->|Hne].
      * exists b. split; [exact Hws|]. exists (t, r). split; [exact Hlast|].
        now apply window_start_le.
      * rewrite lookup_insert_ne in H by congruence.
        rewrite Hrecent in H. destruct (decide _); [contradiction|discriminate].
    + intros bucket Hall. unfold storage_key. rewrite entries_for_same.
      rewrite Hsnoc, Hcounts, andb_true_r.
      assert (Hge : b <= bucket) by (apply (Hall (t, r)), Hlast).
      destruct (Z.eqb_spec b bucket) as [<-|Hne].
      * rewrite Hws, lookup_insert_eq, Htotal. lia.
      * rewrite lookup_insert_ne by (rewrite Hws; nia).
        rewrite Hrecent. destruct (decide _) as [Heq|_]; [rewrite Hws in Heq; nia|].
        rewrite Hother by lia. reflexivity.
    + intros bucket. rewrite Hsnoc, Hcounts, andb_true_r.
      destruct (Z.eqb_spec b bucket) as [<-|Hne].
      * rewrite Htotal in Elim. lia.
      * rewrite Nat.add_0_r. apply K3.
Qed.

(** What the wrapper sums is the number of requests processed so far in
    the window of the present request. *)
Lemma total_is_processed (events : list (@event Body)) (id : string) (t : time) :
  chronological events ->
  (forall e, List.In e events -> (fst e <= t)%Q) ->
  total_requests
    (recent_entries t window
       (entries_for name id (stores_after requests window name events ∅)))
  = Z.of_nat (processed requests window name id (Qfloor (t / inject_Z window))
                events ∅).
Proof.
  intros Hchron Hpast.
  destruct (kept_right_holds events id Hchron) as (K1 & K2 & _).
  pose proof (recent_only_current _ events t K1 Hpast) as Hrecent.
  rewrite (total_requests_single _ (window_start t window)).
  - rewrite Hrecent. destruct (decide _) as [_|Hne]; [|contradiction].
    apply K2. intros e He. apply bucket_mono; [exact window_pos|now apply Hpast].
  - intros ts Hne. rewrite Hrecent. now destruct (decide _).
Qed.

End Counting.

End Requests.

(** C4, as the code has it.  Each decorated endpoint keeps, per identifier
    (the client address when [request.state.user_id] is not set), a count of
    the requests it let through in the current window, the windows being the
    intervals [[k * window, (k + 1) * window)] of the clock.  Along requests
    served in the order of their times: no identifier has more than
    [requests] requests processed in one window; a request from another host
    than the local one is answered with the 429 exception, the endpoint
    function not running and the application state left as it was, exactly
    when [requests] requests of its identifier were already processed in its
    window, and is passed to the endpoint function otherwise; and a request
    from the local host is always passed on and never counted.  This holds
    for [login] with 5 per 300 seconds as for any other [requests] and
    [window], such as 3 per 300 and 2 per 3600. *)
Theorem rate_limit_per_window {Body App R : Type} (requests window : Z)
    (name : string) (func : @endpoint Body App R) (events : list event) (app : App) :
  0 < window -> 0 <= requests -> chronological events ->
  (forall id bucket,
     Z.of_nat (processed requests window name id bucket events ∅) <= requests) /\
  (forall t request,
     (forall e, List.In e events -> (fst e <= t)%Q) ->
     is_localhost (client_ip request) = false ->
     let st := serve requests window name func events (∅, app) in
     let seen := processed requests window name (identifier request)
                   (Qfloor (t / inject_Z window)) events ∅ in
     (requests <= Z.of_nat seen ->
      rate_limit_strict requests window name func request t st
      = (Raise rate_limit_exceeded,
         (next_store requests window name (fst st) (t, request), snd st))) /\
     (Z.of_nat seen < requests ->
      rate_limit_strict requests window name func request t st
      = (fst (func request t (snd st)),
         (next_store requests window name (fst st) (t, request),
          snd (func request t (snd st)))))) /\
  (forall t request st,
     is_localhost (client_ip request) = true ->
     rate_limit_strict requests window name func request t st
     = (fst (func request t (snd st)), (fst st, snd (func request t (snd st))))).
Proof.
  intros Hw Hr Hchron. split; [|split].
  - intros id bucket.
    now destruct (kept_right_holds requests window name Hw Hr events id Hchron)
      as (_ & _ & K3).
  - intros t request Hpast Hremote st seen.
    unfold rate_limit_strict.
    destruct st as [store app'] eqn:Est.
    assert (Hstore : store = stores_after requests window name events ∅).
    { rewrite <- (serve_store requests window name func events ∅ app).
      fold st. now rewrite Est. }
    rewrite wrapper_response. cbn [fst snd].
    unfold admits. rewrite Hremote, Hstore. cbn [orb].
    rewrite (total_is_processed requests window name Hw Hr events
               (identifier request) t Hchron Hpast).
    fold seen. split; intros H.
    + apply Z.leb_le in H. now rewrite H.
    + apply Z.leb_gt in H. now rewrite H.
  - intros t request [store app'] Hlocal.
    unfold rate_limit_strict, wrapper. rewrite Hlocal. cbn [fst snd].
    now destruct (func request t app').
Qed.


Import Auth AuthFixtures.

Example login_endpoint_is_decorated :
  login_endpoint sample_verify sample_token
  = rate_limit_strict 5 300 "login" sample_login.
Proof. reflexivity. Qed.

Example five_logins_then_429 :
  let st := serve 5 300 "login" sample_login
              (List.repeat (10 # 1, remote_guess) 5) (∅, sample_db) in
  fst (login_endpoint sample_verify sample_token remote_guess (20 # 1) st)
  = Raise rate_limit_exceeded /\
  List.map user_failed_login_attempts (users (snd st)) = [9].
Proof. vm_compute. split; reflexivity. Qed.

Lemma five_at_ten_chronological :
  chronological (List.repeat (10 # 1, remote_guess) 5).
Proof.
  unfold chronological. cbn.
  repeat (constructor; [|repeat constructor; cbn; apply Qle_refl]).
  constructor.
Qed.

Lemma rate_limit_per_window_witness :
  rate_limit_strict 5 300 "login" sample_login remote_guess (20 # 1)
    (serve 5 300 "login" sample_login (List.repeat (10 # 1, remote_guess) 5)
       (∅, sample_db))
  = (Raise rate_limit_exceeded,
     (next_store 5 300 "login"
        (fst (serve 5 300 "login" sample_login
                (List.repeat (10 # 1, remote_guess) 5) (∅, sample_db)))
        (20 # 1, remote_guess),
      snd (serve 5 300 "login" sample_login (List.repeat (10 # 1, remote_guess) 5)
             (∅, sample_db)))).
Proof.
  destruct (rate_limit_per_window 5 300 "login" sample_login
              (List.repeat (10 # 1, remote_guess) 5) sample_db)
    as (_ & Hnext & _).
  - lia.
  - lia.
  - exact five_at_ten_chronological.
  - destruct (Hnext (20 # 1) remote_guess) as [Hreject _].
    + intros e He. apply List.repeat_spec in He. subst e. cbn. discriminate.
    + reflexivity.
    + apply Hreject. vm_compute. discriminate.
Defined.

(** C4 as first stated fails twice.  The windows are fixed intervals of the
    clock, not the 300 seconds before a request: after five logins in the
    second 299, a sixth from the same address one second later is in the
    next window and runs the login function (which answers the wrong
    password with 401).  And the local host is never limited: a sixth
    request from 127.0.0.1 in the same second runs the login function too. *)
Lemma sixth_login_is_processed :
  (let st := serve 5 300 "login" sample_login
               (List.repeat (299 # 1, remote_guess) 5) (∅, sample_db) in
   processed 5 300 "login" "203.0.113.7" 0 (List.repeat (299 # 1, remote_guess) 5) ∅
   = 5%nat /\
   fst (login_endpoint sample_verify sample_token remote_guess (300 # 1) st)
   = Raise (HTTPException 401 "Incorrect email or password") /\
   List.map user_failed_login_attempts
     (users (snd (snd (login_endpoint sample_verify sample_token remote_guess
                         (300 # 1) st))))
   = [10]) /\
  (let st := serve 5 300 "login" sample_login
               (List.repeat (10 # 1, local_guess) 5) (∅, sample_db) in
   fst (login_endpoint sample_verify sample_token local_guess (10 # 1) st)
   = Raise (HTTPException 401 "Incorrect email or password") /\
   List.map user_failed_login_attempts
     (users (snd (snd (login_endpoint sample_verify sample_token local_guess
                         (10 # 1) st))))
   = [10]).
Proof. vm_compute. repeat split. Qed.

End RateLimitFacts.

(* ===================================================================== *)
(** * Facts about authentication                                          *)
(* ===================================================================== *)

Module AuthFacts.
Import Auth AuthFixtures PyFacts.

Example strong_password_accepted :
  is_valid (validate_password_strength default_settings "Secret#2024") = true.
Proof. reflexivity. Qed.

Example weak_password_rejected :
  validate_password default_settings "secret2024"
  = Raise (HTTPException 400 "Password does not meet requirements").
Proof. reflexivity. Qed.

Example email_formats :
  validate_email "Alice.Smith+kids@mail.example.org" = true /\
  validate_email "alice@example" = false /\
  validate_email "alice@@example.com" = false /\
  validate_email "@example.com" = false /\
  validate_email "alice@example.c" = false.
Proof. repeat split. Qed.

Example ages :
  validate_student_age 5 = true /\ validate_student_age 18 = true /\
  validate_student_age 4 = false /\ validate_student_age 19 = false.
Proof. repeat split. Qed.

Section CurrentUser.
Variable jwt_decode : string -> option (gmap string string).
Variable parse_uuid : string -> option uuid.

(** ** get_current_user *)

Lemma get_current_user_401 credentials d :
  unauthenticated jwt_decode parse_uuid credentials d ->
  get_current_user jwt_decode parse_uuid credentials d = Raise credentials_exception.
Proof.
  unfold get_current_user, verify_token.
  intros [->|[(payload & -> & ->)|(payload & sub & id & -> & -> & -> & Hnone)]];
    try reflexivity.
  assert (E : List.filter (is_active_user_with_id id) (users d) = []).
  { destruct (List.filter _ _) as [|u l] eqn:E; [reflexivity|exfalso].
    assert (Hu : List.In u (List.filter (is_active_user_with_id id) (users d)))
      by (rewrite E; now left).
    apply List.filter_In in Hu as [Hin Hu]. apply (Hnone u Hin).
    unfold is_active_user_with_id in Hu.
    apply andb_true_iff in Hu as [Hid Hact]. apply N.eqb_eq in Hid. tauto. }
  now rewrite E.
Qed.

(** C3, as the code has it.  When the bearer token is rejected, or its
    payload has no ["sub"], or its ["sub"] is the UUID of no active user, a
    request to an endpoint that depends on [get_current_user] is answered
    with the 401 exception; the answer and the resulting database are the
    same whatever the endpoint function is, which does not run; users,
    students and the error log are as before, and the one change to the
    database is the [system_metrics] row that the request-logging middleware
    records for the 401 response. *)
Theorem get_current_user_guards {R} (body : User -> db -> result R * db)
    (endpoint method : string) (success_status : Z) (credentials : string) (d : db) :
  unauthenticated jwt_decode parse_uuid credentials d ->
  let handled :=
    dispatch endpoint method success_status
      (with_current_user jwt_decode parse_uuid body credentials) d in
  fst handled = Raise credentials_exception /\
  (forall body' : User -> db -> result R * db,
     dispatch endpoint method success_status
       (with_current_user jwt_decode parse_uuid body' credentials) d = handled) /\
  users (snd handled) = users d /\
  students (snd handled) = students d /\
  error_logs (snd handled) = error_logs d /\
  system_metrics (snd handled)
  = system_metrics d ++
    [{| metric_name := "response_time"; metric_endpoint := endpoint;
        metric_method := method; metric_status_code := 401 |}].
Proof.
  intros Hcred handled. subst handled.
  unfold dispatch, with_current_user.
  rewrite (get_current_user_401 credentials d Hcred). cbn.
  repeat split.
Qed.

End CurrentUser.

Lemma get_current_user_guards_witness :
  fst (dispatch "/api/auth/me" "GET" 200
         (with_current_user sample_decode sample_parse_uuid
            (fun u d => (Ok (user_email u), d)) "expired") sample_db)
  = Raise credentials_exception.
Proof.
  apply (get_current_user_guards sample_decode sample_parse_uuid
           (fun u d => (Ok (user_email u), d)) "/api/auth/me" "GET" 200 "expired"
           sample_db).
  left. reflexivity.
Defined.

(** C3 as first stated fails in its last part: a request with a rejected
    token does change the database, by the row that the request-logging
    middleware adds to [system_metrics]. *)
Lemma rejected_request_is_recorded :
  let d' := snd (dispatch "/api/auth/me" "GET" 200
                   (with_current_user sample_decode sample_parse_uuid
                      (fun u d => (Ok (user_email u), d)) "expired") sample_db) in
  d' <> sample_db /\
  system_metrics d'
  = [{| metric_name := "response_time"; metric_endpoint := "/api/auth/me";
        metric_method := "GET"; metric_status_code := 401 |}].
Proof. split; [discriminate|reflexivity]. Qed.

(** ** login *)



Section Login.
Variable pwd_verify : string -> string -> bool.
Variable create_access_token_for_user : uuid -> string -> string.



End Login.

Example fifth_failure_locks :
  let outcome :=
    login sample_verify sample_token
      {| login_email := "Alice@Example.com"; login_password := "guess" |}
      1000 sample_db in
  fst outcome = Raise (HTTPException 401 "Incorrect email or password") /\
  List.map user_failed_login_attempts (users (snd outcome)) = [5] /\
  List.map user_locked_until (users (snd outcome)) = [Some (1000 + minutes 30)].
Proof. repeat split. Qed.


(** ** register *)

Section Register.
Variable pwd_hash : string -> string.
Variable create_access_token_for_user : uuid -> string -> string.
Variable settings : Settings.

(** A request that raises leaves the database as it was. *)
Lemma register_raise_unchanged data new_user_id new_student_id token d e d' :
  register pwd_hash create_access_token_for_user settings data
    new_user_id new_student_id token d = (Raise e, d') ->
  d' = d.
Proof.
  unfold register.
  destruct (validate_email_format _); [|now intros [= _ <-]].
  destruct (validate_password _ _); [|now intros [= _ <-]].
  destruct (negb _); [now intros [= _ <-]|].
  destruct (scalar_one_or_none _) as [[u|]|]; try now intros [= _ <-].
  destruct (create_user_and_student _ _ _ _ _ _) as [[u d1]|e1];
    [discriminate|now intros [= _ <-]].
Qed.

(** The three validations answer with 400. *)
Lemma register_invalid data new_user_id new_student_id token d :
  validate_email (registration_email data) = false \/
  is_valid (validate_password_strength settings (registration_password data)) = false \/
  ~ (5 <= registration_age data <= 18) ->
  exists detail,
    register pwd_hash create_access_token_for_user settings data
      new_user_id new_student_id token d = (Raise (HTTPException 400 detail), d).
Proof.
  intros H. unfold register, validate_email_format, validate_password.
  destruct (validate_email (registration_email data)); [|now eexists].
  destruct (is_valid _); [|now eexists].
  destruct H as [H|[H|H]]; try discriminate.
  assert (E : validate_student_age (registration_age data) = false).
  { unfold validate_student_age. apply andb_false_iff.
    rewrite Z.leb_gt, Z.leb_gt. lia. }
  rewrite E. now eexists.
Qed.

(** So does an email that a user row holds exactly as it was sent. *)
Lemma register_same_spelling data new_user_id new_student_id token d u :
  NoDup (List.map user_email (users d)) ->
  List.In u (users d) -> user_email u = registration_email data ->
  exists detail,
    register pwd_hash create_access_token_for_user settings data
      new_user_id new_student_id token d = (Raise (HTTPException 400 detail), d).
Proof.
  intros Hemails Hin Hemail.
  unfold register, validate_email_format, validate_password.
  destruct (validate_email _); [|now eexists].
  destruct (is_valid _); [|now eexists].
  destruct (negb _); [now eexists|].
  assert (L : (List.length (List.filter (has_email (registration_email data))
                              (users d)) <= 1)%nat).
  { apply (filter_unique_key user_email (registration_email data)); [exact Hemails|].
    intros x Hx. now apply String.eqb_eq in Hx. }
  rewrite (scalar_one_or_none_short _ L).
  rewrite (head_filter_the _ _ u L Hin); [now eexists|].
  now apply String.eqb_eq.
Qed.

(** An email that a user row holds in lower case only is not found by the
    lookup, which compares it as sent; the INSERT of the lower-cased email
    then fails and the request is answered with 500. *)
Lemma register_other_spelling data new_user_id new_student_id token d u :
  validate_email (registration_email data) = true ->
  is_valid (validate_password_strength settings (registration_password data)) = true ->
  5 <= registration_age data <= 18 ->
  (forall v, List.In v (users d) -> user_email v <> registration_email data) ->
  List.In u (users d) -> user_email u = lower (registration_email data) ->
  register pwd_hash create_access_token_for_user settings data
    new_user_id new_student_id token d
  = (Raise (HTTPException 500 "Registration failed. Please try again."), d).
Proof.
  intros Hemail Hpwd Hage Hnone Hin Hlower.
  unfold register, validate_email_format, validate_password.
  rewrite Hemail, Hpwd.
  assert (E : validate_student_age (registration_age data) = true).
  { unfold validate_student_age. apply andb_true_iff.
    rewrite !Z.leb_le. lia. }
  rewrite E. cbn [negb].
  assert (Hnil : List.filter (has_email (registration_email data)) (users d) = []).
  { destruct (List.filter _ (users d)) as [|v l] eqn:F; [reflexivity|exfalso].
    assert (Hv : List.In v (List.filter (has_email (registration_email data)) (users d)))
      by (rewrite F; now left).
    apply List.filter_In in Hv as [Hv Ev]. apply String.eqb_eq in Ev.
    exact (Hnone v Hv Ev). }
  rewrite Hnil. cbn [scalar_one_or_none].
  unfold create_user_and_student, insert_user.
  assert (Hdup : List.existsb
            (fun u' => (user_id u' =? new_user_id)%N ||
                       (user_email u' =? lower (registration_email data))%string)
            (users d) = true).
  { apply List.existsb_exists. exists u. split; [exact Hin|].
    apply orb_true_iff. right. now apply String.eqb_eq. }
  cbn [user_id user_email]. rewrite Hdup. reflexivity.
Qed.

(** A successful registration adds one user, with the email in lower case,
    and one student of that user, and nothing else. *)
Lemma register_creates data new_user_id new_student_id token d response d' :
  register pwd_hash create_access_token_for_user settings data
    new_user_id new_student_id token d = (Ok response, d') ->
  exists u s,
    users d' = users d ++ [u] /\ students d' = students d ++ [s] /\
    user_email u = lower (registration_email data) /\
    student_user_id s = user_id u /\
    student_age s = registration_age data /\
    system_metrics d' = system_metrics d /\ error_logs d' = error_logs d.
Proof.
  unfold register.
  destruct (validate_email_format _); [|discriminate].
  destruct (validate_password _ _); [|discriminate].
  destruct (negb _); [discriminate|].
  destruct (scalar_one_or_none _) as [[u|]|]; try discriminate.
  unfold create_user_and_student, insert_user, insert_student.
  destruct (List.existsb _ (users d)); [discriminate|]. cbn [bind].
  destruct (_ || _); [discriminate|]. cbn [bind].
  intros [= _ <-]. cbn. eexists _, _. repeat split.
Qed.

End Register.

(** C10 fails on the code for an email that is registered in another
    spelling.  The same registration is sent twice: the first creates the
    user with the email in lower case; the second finds no user with the
    email as sent, runs into the unique constraint on insert, and is
    answered with 500, not 400.  No row is created by it. *)
Theorem register_same_email_twice :
  let data := {| registration_email := "Bob@example.com";
                 registration_password := "Secret#2024";
                 registration_age := 9 |} in
  let first := register sample_hash sample_token default_settings data
                 50 60 "token-1" sample_db in
  let second := register sample_hash sample_token default_settings data
                  51 61 "token-2" (snd first) in
  List.map user_email (users (snd first))
  = ["alice@example.com"; "bob@example.com"]%string /\
  List.map student_user_id (students (snd first)) = [43; 50]%N /\
  second = (Raise (HTTPException 500 "Registration failed. Please try again."),
            snd first).
Proof. vm_compute. repeat split. Qed.

(** A subject that is no UUID is not answered with a 401: [uuid.UUID]
    raises a [ValueError], which nothing catches. *)
Example garbled_subject :
  fst (dispatch "/api/auth/me" "GET" 200
         (with_current_user sample_decode sample_parse_uuid
            (fun u d => (Ok (user_email u), d)) "garbled") sample_db)
  = Raise (ValueError "badly formed hexadecimal UUID string").
Proof. reflexivity. Qed.

End AuthFacts.

(* ===================================================================== *)
(** * Facts about the assessment analytics endpoint                       *)
(* ===================================================================== *)

Module AssessmentsFacts.
Import Assessments.

(** ** The ordering is a rearrangement *)

Lemma insert_by_created_at_perm (a : AssessmentAnalytics) (l : list AssessmentAnalytics) :
  Permutation (insert_by_created_at a l) (a :: l).
Proof.
  induction l as [|b l IH]; simpl; [reflexivity|].
  destruct (aa_created_at b <? aa_created_at a); [reflexivity|].
  rewrite IH. apply perm_swap.
Qed.

Lemma order_by_created_at_desc_perm (l : list AssessmentAnalytics) :
  Permutation (order_by_created_at_desc l) l.
Proof.
  induction l as [|a l IH]; simpl; [reflexivity|].
  rewrite insert_by_created_at_perm. now constructor.
Qed.

(** The newest row comes first. *)
Lemma insert_by_created_at_sorted (a : AssessmentAnalytics) (l : list AssessmentAnalytics) :
  StronglySorted (fun x y => aa_created_at y <= aa_created_at x) l ->
  StronglySorted (fun x y => aa_created_at y <= aa_created_at x)
    (insert_by_created_at a l).
Proof.
  induction 1 as [|b l Hs IH Hb]; simpl.
  - repeat constructor.
  - destruct (aa_created_at b <? aa_created_at a) eqn:E.
    + apply Z.ltb_lt in E. constructor; [now constructor|].
      constructor; [lia|].
      rewrite List.Forall_forall in Hb |- *. intros y Hy.
      specialize (Hb y Hy). cbn beta in Hb. lia.
    + apply Z.ltb_ge in E. constructor; [exact IH|].
      rewrite List.Forall_forall in Hb |- *. intros y Hy.
      apply (Permutation_in _ (insert_by_created_at_perm a l)) in Hy.
      destruct Hy as [<-|Hy]; [exact E|now apply Hb].
Qed.

Lemma order_by_created_at_desc_sorted (l : list AssessmentAnalytics) :
  StronglySorted (fun x y => aa_created_at y <= aa_created_at x)
    (order_by_created_at_desc l).
Proof.
  induction l as [|a l IH]; simpl; [constructor|].
  now apply insert_by_created_at_sorted.
Qed.

(** ** Sums *)

Lemma sum_perm (l l' : list Z) : Permutation l l' -> sum l = sum l'.
Proof. induction 1; simpl in *; lia. Qed.

(** Leaving out the rows without a time, or with time 0, loses nothing. *)
Lemma sum_truthy_seconds_all (l : list AssessmentAnalytics) :
  sum_truthy_seconds l = sum (List.map seconds l).
Proof.
  unfold sum_truthy_seconds, sum.
  induction l as [|a l IH]; simpl; [reflexivity|].
  unfold seconds at 1.
  destruct (aa_total_time_seconds a) as [t|] eqn:E.
  - destruct (Z.eqb_spec t 0) as [->|_]; simpl; rewrite ?E, IH; reflexivity.
  - exact IH.
Qed.

(** ** The join *)

Lemma join_one_row (student : uuid) (a : AssessmentAnalytics)
    (assessments : list StudentAssessment) :
  NoDup (List.map asm_id assessments) ->
  List.map fst
    (List.filter (is_completed_row student) (List.map (pair a) assessments)) =
  if List.existsb (fun asm => is_completed_row student (a, asm)) assessments
  then [a] else [].
Proof.
  induction assessments as [|asm l IH];
    cbn [List.map List.filter List.existsb]; intros Hnd; [reflexivity|].
  inversion Hnd as [|? ? Hnotin Hnd']; subst.
  destruct (is_completed_row student (a, asm)) eqn:E;
    cbn [List.map fst orb].
  - rewrite (IH Hnd').
    destruct (List.existsb _ l) eqn:Ex; [exfalso|reflexivity].
    apply List.existsb_exists in Ex as (asm' & Hin & E').
    apply Hnotin.
    unfold is_completed_row in E, E'.
    apply andb_prop in E as [E _]. apply andb_prop in E as [E _].
    apply andb_prop in E' as [E' _]. apply andb_prop in E' as [E' _].
    apply N.eqb_eq in E, E'. rewrite <- E, E'. now apply List.in_map.
  - exact (IH Hnd').
Qed.

(** With assessment ids unique the join selects each analytics row at most
    once: it is a selection from the analytics table. *)
Lemma join_is_selection (student : uuid) (d : db) :
  NoDup (List.map asm_id (student_assessments d)) ->
  List.map fst
    (List.filter (is_completed_row student)
       (List.list_prod (assessment_analytics d) (student_assessments d))) =
  List.filter (owned_by_completed student d) (assessment_analytics d).
Proof.
  intros Hnd. unfold owned_by_completed.
  induction (assessment_analytics d) as [|a l IH]; simpl; [reflexivity|].
  rewrite List.filter_app, List.map_app, IH, (join_one_row _ _ _ Hnd).
  now destruct (List.existsb _ (student_assessments d)).
Qed.

Lemma NoDup_map_filter {A K} (f : A -> K) (P : A -> bool) (l : list A) :
  NoDup (List.map f l) -> NoDup (List.map f (List.filter P l)).
Proof.
  induction l as [|a l IH]; simpl; intros Hnd; [constructor|].
  inversion Hnd as [|? ? Hnotin Hnd']; subst.
  destruct (P a); simpl; [constructor|]; auto.
  intros Hin. apply Hnotin.
  apply List.in_map_iff in Hin as (x & <- & Hx).
  apply List.filter_In in Hx as [Hx _]. now apply List.in_map.
Qed.

(** The selected rows are those of the student's completed assessments. *)
Lemma selected_ids (student : uuid) (d : db) :
  analytics_kept d ->
  Permutation
    (List.map aa_assessment_id
       (List.filter (owned_by_completed student d) (assessment_analytics d)))
    (List.map asm_id (completed_assessments student d)).
Proof.
  intros [Hasm Hrow Hevery _].
  apply NoDup_Permutation.
  - now apply NoDup_map_filter.
  - now apply NoDup_map_filter.
  - intros id. rewrite !List.in_map_iff. split.
    + intros (a & <- & Ha). apply List.filter_In in Ha as [Ha Hown].
      apply List.existsb_exists in Hown as (asm & Hin & E).
      cbn in E. apply andb_prop in E as [E Hc]. apply andb_prop in E as [E Hs].
      apply N.eqb_eq in E.
      exists asm. split; [now symmetry|].
      apply List.filter_In. split; [exact Hin|]. now rewrite Hs, Hc.
    + intros (asm & <- & Hin). apply List.filter_In in Hin as [Hin E].
      destruct (Hevery asm Hin) as (a & Ha & Eid).
      exists a. split; [exact Eid|].
      apply List.filter_In. split; [exact Ha|].
      apply List.existsb_exists. exists asm. split; [exact Hin|].
      cbn. apply andb_prop in E as [Hs Hc].
      rewrite Hs, Hc, Eid, N.eqb_refl. reflexivity.
Qed.

Lemma find_the_row (rows : list AssessmentAnalytics) (a : AssessmentAnalytics) :
  NoDup (List.map aa_assessment_id rows) -> List.In a rows ->
  List.find (fun b => (aa_assessment_id b =? aa_assessment_id a)%N) rows = Some a.
Proof.
  intros Hnd Hin.
  destruct (List.find _ rows) as [b|] eqn:E.
  - apply List.find_some in E as [Hb E]. apply N.eqb_eq in E.
    f_equal. exact (PyFacts.unique_key_eq _ _ _ _ Hnd Hb Hin E).
  - apply (List.find_none _ _ E) in Hin. now rewrite N.eqb_refl in Hin.
Qed.

Lemma seconds_by_id (d : db) (P : AssessmentAnalytics -> bool) :
  NoDup (List.map aa_assessment_id (assessment_analytics d)) ->
  List.map seconds (List.filter P (assessment_analytics d)) =
  List.map (seconds_of_id d)
    (List.map aa_assessment_id (List.filter P (assessment_analytics d))).
Proof.
  intros Hnd. rewrite List.map_map. apply List.map_ext_in.
  intros a Ha. apply List.filter_In in Ha as [Ha _].
  unfold seconds_of_id. now rewrite (find_the_row _ _ Hnd Ha).
Qed.

Lemma total_seconds_by_id (student : uuid) (d : db) :
  total_seconds student d =
  sum (List.map (seconds_of_id d) (List.map asm_id (completed_assessments student d))).
Proof. unfold total_seconds. now rewrite List.map_map. Qed.

(** What the query of the endpoint hands to the aggregation. *)
Lemma select_analytics_count (student : uuid) (d : db) :
  analytics_kept d ->
  List.length (select_analytics student d) =
  List.length (completed_assessments student d).
Proof.
  intros Hk. unfold select_analytics.
  rewrite (Permutation_length (order_by_created_at_desc_perm _)).
  rewrite (join_is_selection _ _ (kept_assessment_ids _ Hk)).
  rewrite <- (List.length_map aa_assessment_id).
  rewrite (Permutation_length (selected_ids student d Hk)).
  apply List.length_map.
Qed.

Lemma select_analytics_seconds (student : uuid) (d : db) :
  analytics_kept d ->
  sum_truthy_seconds (select_analytics student d) = total_seconds student d.
Proof.
  intros Hk. rewrite sum_truthy_seconds_all. unfold select_analytics.
  rewrite (sum_perm _ _ (Permutation_map seconds (order_by_created_at_desc_perm _))).
  rewrite (join_is_selection _ _ (kept_assessment_ids _ Hk)).
  rewrite (seconds_by_id _ _ (kept_one_row_each _ Hk)).
  rewrite (sum_perm _ _ (Permutation_map (seconds_of_id d) (selected_ids student d Hk))).
  symmetry. apply total_seconds_by_id.
Qed.

(** ** The invariant is the one [start_assessment] keeps *)

Lemma analytics_kept_empty (students : list Auth.Student) :
  analytics_kept
    {| Assessments.students := students; student_assessments := [];
       assessment_analytics := [] |}.
Proof. split; simpl; [constructor|constructor|contradiction|contradiction]. Qed.

(** [complete_assessment] and [retake_assessment] rewrite columns of
    existing rows; with the ids as they were the invariant stays. *)
Lemma analytics_kept_by_ids (d d' : db) :
  List.map asm_id (student_assessments d') = List.map asm_id (student_assessments d) ->
  List.map aa_assessment_id (assessment_analytics d') =
  List.map aa_assessment_id (assessment_analytics d) ->
  analytics_kept d -> analytics_kept d'.
Proof.
  intros Easm Erow [Hasm Hrow Hevery Hfk]. split.
  - now rewrite Easm.
  - now rewrite Erow.
  - intros asm' Hin.
    apply (List.in_map asm_id) in Hin. rewrite Easm in Hin.
    apply List.in_map_iff in Hin as (asm & Eid & Hin).
    destruct (Hevery asm Hin) as (a & Ha & E).
    apply (List.in_map aa_assessment_id) in Ha. rewrite <- Erow in Ha.
    apply List.in_map_iff in Ha as (a' & Eid' & Ha').
    exists a'. split; [exact Ha'|congruence].
  - intros a' Hin.
    apply (List.in_map aa_assessment_id) in Hin. rewrite Erow in Hin.
    apply List.in_map_iff in Hin as (a & Eid & Hin).
    destruct (Hfk a Hin) as (asm & Ha & E).
    apply (List.in_map asm_id) in Ha. rewrite <- Easm in Ha.
    apply List.in_map_iff in Ha as (asm' & Eid' & Ha').
    exists asm'. split; [exact Ha'|congruence].
Qed.

Lemma create_assessment_keeps (id student : uuid) (now : datetime) (d d' : db) :
  analytics_kept d ->
  create_assessment id student now d = Ok d' ->
  analytics_kept d'.
Proof.
  intros [Hasm Hrow Hevery Hfk]. unfold create_assessment.
  destruct (List.existsb _ (student_assessments d)) eqn:Ex; [discriminate|].
  intros [= <-].
  assert (Hfresh : ~ List.In id (List.map asm_id (student_assessments d))).
  { intros Hin. apply List.in_map_iff in Hin as (asm & E & Hin).
    assert (Ht : List.existsb (fun asm => (asm_id asm =? id)%N)
                   (student_assessments d) = true).
    { apply List.existsb_exists. exists asm. split; [exact Hin|].
      now apply N.eqb_eq. }
    congruence. }
  split; simpl.
  - rewrite List.map_app. now apply PyFacts.NoDup_snoc.
  - rewrite List.map_app. apply PyFacts.NoDup_snoc; [exact Hrow|]. simpl.
    intros Hin. apply List.in_map_iff in Hin as (a & E & Ha).
    destruct (Hfk a Ha) as (asm & Hin & E').
    apply Hfresh. rewrite <- E, <- E'. now apply List.in_map.
  - intros asm Hin. apply List.in_app_iff in Hin as [Hin|[<-|[]]].
    + destruct (Hevery asm Hin) as (a & Ha & E).
      exists a. split; [apply List.in_app_iff; now left|exact E].
    + eexists. split; [apply List.in_app_iff; right; left; reflexivity|].
      reflexivity.
  - intros a Hin. apply List.in_app_iff in Hin as [Hin|[<-|[]]].
    + destruct (Hfk a Hin) as (asm & Ha & E).
      exists asm. split; [apply List.in_app_iff; now left|exact E].
    + eexists. split; [apply List.in_app_iff; right; left; reflexivity|].
      reflexivity.
Qed.

(** ** The endpoint *)

Lemma no_assessment_no_seconds (student : uuid) (d : db) :
  completed_assessments student d = [] -> total_seconds student d = 0.
Proof. unfold total_seconds. now intros ->. Qed.

Section Endpoint.
Variable parse_uuid : string -> option uuid.

Lemma get_assessment_analytics_selects (student_id : string) (id : uuid)
    (current_user : Auth.User) (student : Auth.Student) (d : db) :
  NoDup (List.map Auth.student_id (students d)) ->
  parse_uuid student_id = Some id ->
  List.In student (students d) ->
  is_student_of id (Auth.user_id current_user) student = true ->
  get_assessment_analytics parse_uuid student_id current_user d =
  Ok (aggregate student_id (select_analytics id d)).
Proof.
  intros Hnd Hparse Hin Hst. unfold get_assessment_analytics. rewrite Hparse.
  assert (Hid : forall s, is_student_of id (Auth.user_id current_user) s = true ->
                          Auth.student_id s = id).
  { intros s E. unfold is_student_of in E.
    apply andb_prop in E as [E _]. apply andb_prop in E as [E _].
    now apply N.eqb_eq. }
  assert (Hlen := PyFacts.filter_unique_key Auth.student_id id _ _ Hnd Hid).
  rewrite (PyFacts.scalar_one_or_none_short _ Hlen).
  rewrite (PyFacts.head_filter_the _ _ _ Hlen Hin Hst).
  cbn [bind]. now rewrite (Hid _ Hst).
Qed.

(** C5.  For a student of the caller, with every assessment holding its
    one analytics row, the analytics endpoint answers with
    [total_assessments] the number of the student's completed assessments
    and [average_completion_time_minutes] the mean of their
    [total_time_seconds] (an unset time counting as 0), divided by 60 and
    rounded to two decimals, all in binary64; the integer 0 stands for a
    mean of zero, which is the case when nothing has been completed. *)
Theorem analytics_aggregates (student_id : string) (id : uuid)
    (current_user : Auth.User) (student : Auth.Student) (d : db) :
  analytics_kept d ->
  NoDup (List.map Auth.student_id (students d)) ->
  parse_uuid student_id = Some id ->
  List.In student (students d) ->
  is_student_of id (Auth.user_id current_user) student = true ->
  exists r,
    get_assessment_analytics parse_uuid student_id current_user d = Ok r /\
    total_assessments r = Z.of_nat (List.length (completed_assessments id d)) /\
    average_completion_time_minutes r =
      (if total_seconds id d =? 0 then Int 0
       else Float (round2 (PrimFloat.div
                             (truediv (total_seconds id d)
                                (Z.of_nat (List.length (completed_assessments id d))))
                             (float_of_int 60)))) /\
    (completed_assessments id d = [] ->
     total_assessments r = 0 /\ average_completion_time_minutes r = Int 0).
Proof.
  intros Hk Hnd Hparse Hin Hst.
  eexists. split; [exact (get_assessment_analytics_selects _ _ _ _ _ Hnd Hparse Hin Hst)|].
  assert (Htotal : total_assessments (aggregate student_id (select_analytics id d)) =
                   Z.of_nat (List.length (completed_assessments id d))).
  { cbn [aggregate total_assessments]. now rewrite (select_analytics_count _ _ Hk). }
  assert (Havg : average_completion_time_minutes
                   (aggregate student_id (select_analytics id d)) =
                 if total_seconds id d =? 0 then Int 0
                 else Float (round2 (PrimFloat.div
                        (truediv (total_seconds id d)
                           (Z.of_nat (List.length (completed_assessments id d))))
                        (float_of_int 60)))).
  { cbn [aggregate average_completion_time_minutes].
    rewrite (select_analytics_count _ _ Hk), (select_analytics_seconds _ _ Hk).
    destruct (Z.ltb_spec 0 (Z.of_nat (List.length (completed_assessments id d))))
      as [_|Hle]; [reflexivity|].
    destruct (completed_assessments id d) as [|asm l] eqn:E;
      [|cbn [List.length] in Hle; lia].
    now rewrite (no_assessment_no_seconds _ _ E). }
  split; [exact Htotal|]. split; [exact Havg|].
  intros E. rewrite Htotal, Havg, (no_assessment_no_seconds _ _ E), E.
  split; reflexivity.
Qed.

End Endpoint.

(** The fixture satisfies the invariant. *)
Lemma sample_db_kept : analytics_kept AssessmentFixtures.sample_db.
Proof.
  split.
  - vm_compute. repeat (apply NoDup_cons; [simpl; intuition congruence|]).
    apply NoDup_nil.
  - vm_compute. repeat (apply NoDup_cons; [simpl; intuition congruence|]).
    apply NoDup_nil.
  - intros asm Hin.
    assert (H : List.existsb (fun a => (aa_assessment_id a =? asm_id asm)%N)
                  (assessment_analytics AssessmentFixtures.sample_db) = true).
    { cbn in Hin. destruct Hin as [<-|[<-|[<-|[<-|[]]]]]; reflexivity. }
    apply List.existsb_exists in H as (a & Ha & E).
    exists a. split; [exact Ha|now apply N.eqb_eq].
  - intros a Hin.
    assert (H : List.existsb (fun asm => (asm_id asm =? aa_assessment_id a)%N)
                  (student_assessments AssessmentFixtures.sample_db) = true).
    { cbn in Hin. destruct Hin as [<-|[<-|[<-|[<-|[]]]]]; reflexivity. }
    apply List.existsb_exists in H as (asm & Ha & E).
    exists asm. split; [exact Ha|now apply N.eqb_eq].
Qed.

(** Two completed assessments of 100 and 250 seconds: 2 assessments and an
    average of 2.92 minutes. *)
Lemma analytics_aggregates_witness :
  exists r,
    get_assessment_analytics AssessmentFixtures.sample_parse_uuid "child"
      AssessmentFixtures.parent AssessmentFixtures.sample_db = Ok r /\
    total_assessments r = 2 /\
    average_completion_time_minutes r = Float 0x1.75c28f5c28f5cp+1%float.
Proof.
  destruct (analytics_aggregates AssessmentFixtures.sample_parse_uuid "child" 21%N
              AssessmentFixtures.parent AssessmentFixtures.child
              AssessmentFixtures.sample_db sample_db_kept)
    as (r & Hr & Htotal & Havg & _).
  - vm_compute. repeat (apply NoDup_cons; [simpl; intuition congruence|]).
    apply NoDup_nil.
  - reflexivity.
  - left. reflexivity.
  - reflexivity.
  - exists r. split; [exact Hr|]. split; [exact Htotal|]. exact Havg.
Defined.

(** The newest assessment heads the history. *)
Example child_history :
  option_map assessment_history
    (match get_assessment_analytics AssessmentFixtures.sample_parse_uuid "child"
             AssessmentFixtures.parent AssessmentFixtures.sample_db with
     | Ok r => Some r
     | Raise _ => None
     end) =
  Some [ history_entry (AssessmentFixtures.analytics_row 33 3000 (Some 250));
         history_entry (AssessmentFixtures.analytics_row 31 1000 (Some 100)) ].
Proof. reflexivity. Qed.

(** A student of another parent is not found. *)
Example stranger_404 :
  get_assessment_analytics AssessmentFixtures.sample_parse_uuid "child"
    {| Auth.user_id := 99; Auth.user_email := "eve@example.com";
       Auth.user_password_hash := "x";
       Auth.user_email_verification_token := None;
       Auth.user_last_login := None;
       Auth.user_failed_login_attempts := 0;
       Auth.user_locked_until := None;
       Auth.user_is_active := true |}
    AssessmentFixtures.sample_db =
  Raise (HTTPException 404 "Student not found").
Proof. reflexivity. Qed.

End AssessmentsFacts.
